(** * A shallow embedding of [instagram_post_automation.py]

  The script drives a remote browser through Selenium.  The resilient
  interaction core is embedded here: the retry decorator
  [exceptional_handler], the polling decorator [wait_until], the
  [BrowserHandler] element primitives and teardown, and the two
  [InstagramBot] workflows [login] and [post_image].

  The browser, the file system and the clock are external.  They are
  gathered in a class [Env] over an arbitrary type of worlds, and every
  call the script makes is recorded in a trace, newest event first.  The
  theorems quantify over every environment. *)

From Stdlib Require Import ZArith List String Ascii Bool Lia.
From Equations Require Import Equations.
Import ListNotations.

Open Scope string_scope.
Open Scope Z_scope.

(** ** Python values the script manipulates *)

Module Py.

(** The exception classes that can reach the script: Python's built-in
    ones and those of [selenium.common.exceptions]. *)
Inductive exc_class : Type :=
| BaseException
| KeyboardInterrupt
| Exception
| ValueError
| TypeError
| AttributeError
| OSError
| FileNotFoundError
| WebDriverException
| NoSuchElementException
| TimeoutException
| StaleElementReferenceException
| ElementClickInterceptedException
| InvalidElementStateException
| ElementNotInteractableException
| NoSuchAttributeException
| InvalidSelectorException
| JavascriptException
| NoSuchWindowException
| RuntimeError
| RecursionError.

Scheme Equality for exc_class.

(** The direct base class of each class. *)
Definition parent (c : exc_class) : option exc_class :=
  match c with
  | BaseException => None
  | KeyboardInterrupt => Some BaseException
  | Exception => Some BaseException
  | ValueError | TypeError | AttributeError | OSError
  | RuntimeError => Some Exception
  | RecursionError => Some RuntimeError
  | FileNotFoundError => Some OSError
  | WebDriverException => Some Exception
  | ElementNotInteractableException => Some InvalidElementStateException
  | NoSuchElementException | TimeoutException
  | StaleElementReferenceException | ElementClickInterceptedException
  | InvalidElementStateException | NoSuchAttributeException
  | InvalidSelectorException | JavascriptException
  | NoSuchWindowException => Some WebDriverException
  end.

Fixpoint superclasses (depth : nat) (c : exc_class) : list exc_class :=
  c :: match depth with
       | O => []
       | S d => match parent c with
                | Some p => superclasses d p
                | None => []
                end
       end.

(** The class and its ancestors; no chain above is longer than five. *)
Definition mro (c : exc_class) : list exc_class := superclasses 4 c.

Definition issubclass (c d : exc_class) : bool :=
  existsb (exc_class_beq d) (mro c).

(** An exception instance: its class and the message it was built with. *)
Record exn : Type := mkExn { exn_class : exc_class; exn_msg : string }.

(** [isinstance(e, (C1, ..., Cn))], the test of an [except] clause. *)
Definition isinstance (e : exn) (classes : list exc_class) : bool :=
  existsb (issubclass (exn_class e)) classes.

Definition newline : string := String (ascii_of_nat 10) EmptyString.

(** [str(e)].  Selenium's [WebDriverException.__str__] prefixes the
    message with "Message: " and ends the line; an exception the script
    raises itself carries neither screenshot nor stack trace. *)
Definition str (e : exn) : string :=
  if issubclass (exn_class e) WebDriverException
  then "Message: " ++ exn_msg e ++ newline
  else exn_msg e.

(** Truth value of a list: non-empty. *)
Definition truthy {A : Type} (l : list A) : bool :=
  match l with [] => false | _ :: _ => true end.

(** ['.' * n] and friends. *)
Fixpoint str_repeat (s : string) (n : nat) : string :=
  match n with O => "" | S k => s ++ str_repeat s k end.

(** [str.lower] on the ASCII range, which is where the letters of the
    allow-list live. *)
Definition lower_ascii (c : ascii) : ascii :=
  let n := nat_of_ascii c in
  if (Nat.leb 65 n && Nat.leb n 90)%bool then ascii_of_nat (n + 32) else c.

Fixpoint str_lower (s : string) : string :=
  match s with
  | EmptyString => EmptyString
  | String c s' => String (lower_ascii c) (str_lower s')
  end.

(** [p.rfind(c)] for a one-character [c]: the last index, or -1. *)
Fixpoint rfind_from (c : ascii) (p : string) (i last : Z) : Z :=
  match p with
  | EmptyString => last
  | String a p' => rfind_from c p' (i + 1) (if Ascii.eqb a c then i else last)
  end.

Definition rfind (c : ascii) (p : string) : Z := rfind_from c p 0 (-1).

(** The slices [p[:i]] and [p[i:]] for [0 <= i]. *)
Definition slice_to (p : string) (i : Z) : string :=
  substring 0 (Z.to_nat i) p.

Definition slice_from (p : string) (i : Z) : string :=
  substring (Z.to_nat i) (String.length p - Z.to_nat i) p.

(** The two flavours of [os.path]. *)
Inductive os_name : Type := posix | nt.

(** The [while] loop of [genericpath._splitext]: is some character of
    [p[filenameIndex:dotIndex]] not a dot?  [n] bounds the iterations. *)
Fixpoint has_non_dot (n : nat) (p : string) (filenameIndex dotIndex : Z) : bool :=
  match n with
  | O => false
  | S n' =>
      if filenameIndex <? dotIndex then
        if negb (String.eqb (substring (Z.to_nat filenameIndex) 1 p) ".")
        then true
        else has_non_dot n' p (filenameIndex + 1) dotIndex
      else false
  end.

(** [os.path.splitext], that is [genericpath._splitext] with the
    separators of the platform. *)
Definition splitext (os : os_name) (p : string) : string * string :=
  let sepIndex :=
    match os with
    | posix => rfind "/"%char p
    | nt => Z.max (rfind "\"%char p) (rfind "/"%char p)
    end in
  let dotIndex := rfind "."%char p in
  if (dotIndex >? sepIndex) &&
     has_non_dot (String.length p) p (sepIndex + 1) dotIndex
  then (slice_to p dotIndex, slice_from p dotIndex)
  else (p, "").

(** [x in l] for a list of strings. *)
Definition str_in (x : string) (l : list string) : bool :=
  existsb (String.eqb x) l.

End Py.

Import Py.

(** line 20: the classes caught by the retry decorator. *)
Definition COMMON_EXCEPTIONS : list exc_class :=
[NoSuchElementException; TimeoutException;
 StaleElementReferenceException; ElementClickInterceptedException;
 WebDriverException; ElementNotInteractableException;
 NoSuchAttributeException].

(** ** Events, state and the monad of the script *)

(** A DOM element handle. *)
Definition element : Type := nat.

(** What [get_element] returns: one element, or all the matches. *)
Inductive located : Type :=
| One (e : element)
| Many (es : list element).

(** The three Selenium expected conditions [get_element] chooses from. *)
Inductive condition : Type :=
| presence_of_element_located
| presence_of_all_elements_located
| element_to_be_clickable.

(** Calls into the remote session. *)
Inductive driver_call : Type :=
| DGet (url : string)
| DFindElements (css : string)
| DWaitUntil (c : condition) (css : string)
| DClear (e : element)
| DSendKeys (e : element) (data : string)
| DExecuteScript (script : string) (arg : option located)
| DClick (e : element)
| DGetProperty (e : element) (name : string)
| DQuit
| DSbExit.

Inductive hook_name : Type :=
| before_loop_hook | in_loop_before_hook | in_loop_after_hook | after_loop_hook.

(** Everything observable the script does.  Durations are milliseconds. *)
Inductive event : Type :=
| EvInvoke                      (* exceptional_handler calls the decorated function *)
| EvCondition                   (* wait_until calls the condition function *)
| EvHook (h : hook_name)        (* wait_until: one of the four hooks is called *)
| EvPrint (s : string)
| EvSleep (ms : Z)
| EvPathExists (path : string)
| EvPopen (cmd : string)
| EvDriver (c : driver_call).

(** An answer of the environment: a value or an exception. *)
Inductive reply (A : Type) : Type :=
| Ok (a : A)
| Fault (e : exn).
Arguments Ok {A} a.
Arguments Fault {A} e.

(** The outside world as the script sees it. *)
Class Env (W : Type) : Type := {
os_flavour : os_name;
elapse : Z -> W -> W;
path_exists : string -> W -> bool;
popen : string -> W -> W;
driver_get : string -> W -> reply unit * W;
driver_find_elements : string -> W -> reply (list element) * W;
wait_until_condition : condition -> string -> W -> reply located * W;
driver_execute_script : string -> option located -> W -> reply unit * W;
element_clear : element -> W -> reply unit * W;
element_send_keys : element -> string -> W -> reply unit * W;
element_click : element -> W -> reply unit * W;
element_get_property : element -> string -> W -> reply string * W;
driver_quit : W -> reply unit * W;
sb_exit : W -> reply unit * W
}.

(** The result of running a piece of the script: a value, an exception in
  flight, or the loop budget of the model used up. *)
Inductive outcome (A : Type) : Type :=
| Ret (a : A)
| Raise (e : exn)
| OutOfFuel.
Arguments Ret {A} a.
Arguments Raise {A} e.
Arguments OutOfFuel {A}.

Record St (W : Type) : Type := mkSt { world : W; trace : list event }.
Arguments mkSt {W} world trace.
Arguments world {W} s.
Arguments trace {W} s.

Definition Action (W A : Type) : Type := St W -> outcome A * St W.

Section Monad.
Context {W : Type}.

Definition ret {A} (a : A) : Action W A := fun st => (Ret a, st).

Definition raise {A} (e : exn) : Action W A := fun st => (Raise e, st).

Definition out_of_fuel {A} : Action W A := fun st => (OutOfFuel, st).

Definition bind {A B} (m : Action W A) (k : A -> Action W B) : Action W B :=
  fun st =>
    match m st with
    | (Ret a, st1) => k a st1
    | (Raise e, st1) => (Raise e, st1)
    | (OutOfFuel, st1) => (OutOfFuel, st1)
    end.

(** [try: body except classes as e: handler(e)] *)
Definition try_except {A} (body : Action W A) (classes : list exc_class)
           (handler : exn -> Action W A) : Action W A :=
  fun st =>
    match body st with
    | (Raise e, st1) =>
        if isinstance e classes then handler e st1 else (Raise e, st1)
    | r => r
    end.

Definition emit (ev : event) : Action W unit :=
  fun st => (Ret tt, mkSt (world st) (ev :: trace st)).

(** A call answered by the environment, without a trace entry. *)
Definition lift {A} (op : W -> reply A * W) : Action W A :=
  fun st =>
    match op (world st) with
    | (Ok a, w) => (Ret a, mkSt w (trace st))
    | (Fault e, w) => (Raise e, mkSt w (trace st))
    end.

(** A call answered by the environment and recorded as [ev]. *)
Definition perform {A} (ev : event) (op : W -> reply A * W) : Action W A :=
  bind (emit ev) (fun _ => lift op).

End Monad.

Notation "x <- m ;; k" := (bind m (fun x => k))
(at level 61, m at next level, right associativity).
Notation "m ;;; k" := (bind m (fun _ => k))
(at level 61, right associativity).

Section Script.
Context {W : Type} `{Env W}.

(** [time.sleep] and [print] with a carriage return as line end. *)
Definition time_sleep (ms : Z) : Action W unit :=
  fun st => (Ret tt, mkSt (elapse ms (world st)) (EvSleep ms :: trace st)).

Definition print (s : string) : Action W unit := emit (EvPrint s).

(** *** lines 142-158: [exceptional_handler]

    [wrapper] is the inner function, with [retry] and [max_retries]
    already read from the keyword arguments; [func] stands for the
    decorated function applied to the remaining arguments. *)
Equations? wrapper {A : Type} (func : Action W A) (retry max_retries : Z)
           (st : St W) : outcome A * St W
  by wf (Z.to_nat (max_retries - retry)) lt :=
  wrapper func retry max_retries st with Z_ge_lt_dec retry max_retries := {
    | left _ => (Raise (mkExn Exception "Maximum retries reached!"), st)
    | right _ with (emit EvInvoke ;;; func) st := {
        | (Ret a, st1) => (Ret a, st1)
        | (OutOfFuel, st1) => (OutOfFuel, st1)
        | (Raise e, st1) with isinstance e COMMON_EXCEPTIONS := {
            | false => (Raise e, st1)
            | true => wrapper func (retry + 1) max_retries
                              (snd (time_sleep 5000 st1)) } } }.
Proof. lia. Qed.

Definition kwargs_get {A : Type} (kw : option A) (default : A) : A :=
  match kw with Some v => v | None => default end.

Definition exceptional_handler {A : Type} (func : Action W A)
           (retry max_retries : option Z) : Action W A :=
  wrapper func (kwargs_get retry 0) (kwargs_get max_retries 2).

(** *** lines 161-184: [wait_until]

    The keyword arguments the inner function reads with [kwargs.get]. *)
Record wait_kwargs : Type := mkWaitKwargs {
  before_loop : option (Action W unit);
  in_loop_before : option (Action W unit);
  in_loop_after : option (Action W unit);
  after_loop : option (Action W unit);
  max_tries : option Z;
  message : option string;
  sleep : option Z
}.

(** [kwargs.get(name, lambda: True)()]: the hook, or the default that
    does nothing, is called and what it returns is dropped. *)
Definition call_hook (h : hook_name) (hook : option (Action W unit)) : Action W unit :=
  emit (EvHook h) ;;; kwargs_get hook (ret tt).

(** The [while True] loop.  [fuel] bounds the number of iterations of the
    model and is the only thing the source does not have; the result is
    the final value of [not_completed]. *)
Fixpoint wait_loop (fuel : nat) (condition_func : Action W bool) (kw : wait_kwargs)
         (max_attempts : Z) (dots : nat) (attempt : Z) : Action W bool :=
  match fuel with
  | O => out_of_fuel
  | S fuel' =>
      call_hook in_loop_before_hook (in_loop_before kw) ;;;
      c <- (emit EvCondition ;;; condition_func) ;;
      if c then ret false
      else if negb (max_attempts =? -1) && (attempt >=? max_attempts)
      then ret true
      else
        let attempt := attempt + 1 in
        print (kwargs_get (message kw) "Waiting" ++ str_repeat "." dots) ;;;
        let dots := if Nat.ltb 2 dots then 1%nat else (dots + 1)%nat in
        call_hook in_loop_after_hook (in_loop_after kw) ;;;
        time_sleep (kwargs_get (sleep kw) 500) ;;;
        print (str_repeat " " 100) ;;;
        wait_loop fuel' condition_func kw max_attempts dots attempt
  end.

Definition wait_until (fuel : nat) (condition_func : Action W bool)
           (kw : wait_kwargs) : Action W bool :=
  call_hook before_loop_hook (before_loop kw) ;;;
  let max_attempts := kwargs_get (max_tries kw) (-1) in
  not_completed <- wait_loop fuel condition_func kw max_attempts 1 0 ;;
  call_hook after_loop_hook (after_loop kw) ;;;
  ret (negb not_completed).

(** *** lines 187-280: [BrowserHandler] *)

(** A handle on a live Selenium object. *)
Definition handle : Type := nat.

Record BrowserHandler : Type := mkBrowserHandler {
  platform : string;
  temp_profile : string;
  driver : option handle;
  wait : option handle;
  seleniumbase_driver : option handle;
  sb_init : option handle
}.

(** Attribute access on a field that may still be [None]. *)
Definition attribute_of {A : Type} (obj : option A) (attr : string) : Action W A :=
  match obj with
  | Some a => ret a
  | None => raise (mkExn AttributeError
              ("'NoneType' object has no attribute '" ++ attr ++ "'"))
  end.

(** A method call on what should be a single [WebElement]. *)
Definition element_of (target : option located) (attr : string) : Action W element :=
  match target with
  | Some (One e) => ret e
  | Some (Many _) => raise (mkExn AttributeError
                       ("'list' object has no attribute '" ++ attr ++ "'"))
  | None => raise (mkExn AttributeError
              ("'NoneType' object has no attribute '" ++ attr ++ "'"))
  end.

Definition get_element (self : BrowserHandler) (css_selector : string)
           (by_clickable multiple : bool) : Action W located :=
  let condition := if negb multiple then presence_of_element_located
                   else presence_of_all_elements_located in
  let condition := if by_clickable then element_to_be_clickable
                   else condition in
  attribute_of (wait self) "until" ;;;
  perform (EvDriver (DWaitUntil condition css_selector))
          (wait_until_condition condition css_selector).

Definition find_elements (self : BrowserHandler) (css_selector : string)
  : Action W (list element) :=
  attribute_of (driver self) "find_elements" ;;;
  perform (EvDriver (DFindElements css_selector))
          (driver_find_elements css_selector).

(** [Keys.ENTER], U+E007 in UTF-8. *)
Definition Keys_ENTER : string :=
  String (ascii_of_nat 238) (String (ascii_of_nat 128)
    (String (ascii_of_nat 135) EmptyString)).

Definition send_keys (input_el : located) (data : string) : Action W unit :=
  e <- element_of (Some input_el) "send_keys" ;;
  perform (EvDriver (DSendKeys e data)) (element_send_keys e data).

(** The body of [write], before decoration. *)
Definition write_body (self : BrowserHandler) (css_selector data : string)
           (enter clickable clear : bool) : Action W unit :=
  input_el <- get_element self css_selector clickable false ;;
  (if clear
   then e <- element_of (Some input_el) "clear" ;;
        perform (EvDriver (DClear e)) (element_clear e)
   else ret tt) ;;;
  send_keys input_el data ;;;
  if enter then send_keys input_el Keys_ENTER else ret tt.

Definition write (self : BrowserHandler) (css_selector data : string)
           (enter clickable clear : bool) (retry max_retries : option Z)
  : Action W unit :=
  exceptional_handler
    (write_body self css_selector data enter clickable clear)
    retry max_retries.

Definition scroll_into_view : string :=
  "arguments[0].scrollIntoView({block: 'center'})".

(** The body of [click_element], before decoration. *)
Definition click_element_body (self : BrowserHandler)
           (css_selector : option string) (element : option located)
  : Action W unit :=
  element <- match css_selector with
             | Some css => l <- get_element self css true false ;; ret (Some l)
             | None => ret element
             end ;;
  attribute_of (driver self) "execute_script" ;;;
  perform (EvDriver (DExecuteScript scroll_into_view element))
          (driver_execute_script scroll_into_view element) ;;;
  time_sleep 1000 ;;;
  e <- element_of element "click" ;;
  perform (EvDriver (DClick e)) (element_click e).

Definition click_element (self : BrowserHandler)
           (css_selector : option string) (element : option located)
           (retry max_retries : option Z) : Action W unit :=
  exceptional_handler (click_element_body self css_selector element)
                      retry max_retries.

(** What [get_text] returns: one text, or the texts of all matches. *)
Inductive text_result : Type :=
| Text (s : string)
| Texts (l : list string).

(** [t == label] for a string [label]. *)
Definition text_eqb (t : text_result) (label : string) : bool :=
  match t with
  | Text s => String.eqb s label
  | Texts _ => false
  end.

Definition get_property (e : element) (name : string) : Action W string :=
  perform (EvDriver (DGetProperty e name)) (element_get_property e name).

Fixpoint get_properties (es : list element) (name : string)
  : Action W (list string) :=
  match es with
  | [] => ret []
  | e :: rest =>
      s <- get_property e name ;;
      l <- get_properties rest name ;;
      ret (s :: l)
  end.

(** The body of [get_text], before decoration. *)
Definition get_text_body (self : BrowserHandler)
           (css_selector : option string) (element : option located)
           (multiple : bool) : Action W text_result :=
  element <- match css_selector with
             | Some css => l <- get_element self css false multiple ;;
                           ret (Some l)
             | None => ret element
             end ;;
  if negb multiple then
    e <- element_of element "get_property" ;;
    s <- get_property e "innerText" ;;
    ret (Text s)
  else
    match element with
    | Some (Many es) => l <- get_properties es "innerText" ;; ret (Texts l)
    | Some (One _) =>
        raise (mkExn TypeError "'WebElement' object is not iterable")
    | None => raise (mkExn TypeError "'NoneType' object is not iterable")
    end.

Definition get_text (self : BrowserHandler) (css_selector : option string)
           (element : option located) (multiple : bool)
           (retry max_retries : option Z) : Action W text_result :=
  exceptional_handler (get_text_body self css_selector element multiple)
                      retry max_retries.

Definition subprocess_Popen (cmd : string) : Action W unit :=
  fun st => (Ret tt, mkSt (popen cmd (world st)) (EvPopen cmd :: trace st)).

(** lines 264-280.  The method assigns to no field of [self]. *)
Definition kill_browser (self : BrowserHandler) (delete_profile : bool)
  : Action W unit :=
  match driver self with
  | None => ret tt
  | Some _ =>
      perform (EvDriver DQuit) driver_quit ;;;
      attribute_of (sb_init self) "__exit__" ;;;
      perform (EvDriver DSbExit) sb_exit ;;;
      time_sleep 5000 ;;;
      if negb delete_profile then ret tt
      else if str_in (platform self) ["LINUX"; "DARWIN"]
      then subprocess_Popen ("rm -r " ++ temp_profile self)
      else if String.eqb (platform self) "WINDOWS"
      then subprocess_Popen ("rmdir /S /Q " ++ temp_profile self)
      else ret tt
  end.

(** *** lines 282-365: [InstagramBot] *)

Record InstagramBot : Type := mkInstagramBot {
  handler : BrowserHandler;
  username : string;
  password : string
}.

Definition home_landmark : string := "svg[aria-label=Home]".

(** [except Exception as e: raise Exception(prefix + str(e))] *)
Definition reraise_as {A : Type} (prefix : string) (e : exn) : Action W A :=
  raise (mkExn Exception (prefix ++ str e)).

(** lines 298-315. *)
Definition login (fuel : nat) (self : InstagramBot) : Action W bool :=
  let this := handler self in
  try_except
    (attribute_of (driver this) "get" ;;;
     perform (EvDriver (DGet "https://www.instagram.com/"))
             (driver_get "https://www.instagram.com/") ;;;
     time_sleep 3000 ;;;
     home <- find_elements this home_landmark ;;
     if truthy home then ret true
     else
       write this "[name='username']" (username self)
             false true true None None ;;;
       write this "[name='password']" (password self)
             false true true None None ;;;
       click_element this (Some "button[type=submit]") None None None ;;;
       time_sleep 5000 ;;;
       confirmed <- wait_until fuel
                      (l <- find_elements this home_landmark ;; ret (truthy l))
                      (mkWaitKwargs None None None None (Some 20)
                                    (Some "Waiting until login") None) ;;
       if negb confirmed
       then raise (mkExn TimeoutException "No login confirmation")
       else ret true)
    [Exception]
    (reraise_as "Login failed: ").

(** The [for button in ...: if label matches: click; break] loops. *)
Fixpoint click_first_labelled (this : BrowserHandler) (label : string)
         (buttons : list element) : Action W unit :=
  match buttons with
  | [] => ret tt
  | button :: rest =>
      t <- get_text this None (Some (One button)) false None None ;;
      if text_eqb t label
      then click_element this None (Some (One button)) None None
      else click_first_labelled this label rest
  end.

Definition allowed_extensions : list string :=
  [".jpg"; ".jpeg"; ".png"; ".gif"; ".mp4"; ".mov"].

Definition os_path_exists (path : string) : Action W bool :=
  fun st => (Ret (path_exists path (world st)),
             mkSt (world st) (EvPathExists path :: trace st)).

(** A dialog gate: poll for the selector with the given budget. *)
Definition wait_for_dialog (fuel : nat) (this : BrowserHandler)
           (css message : string) (max_tries : Z) : Action W bool :=
  wait_until fuel
    (l <- find_elements this css ;; ret (truthy l))
    (mkWaitKwargs None None None None (Some max_tries) (Some message) None).

(** lines 338-362: the steps that follow validation. *)
Definition post_steps (fuel : nat) (this : BrowserHandler)
           (image_path caption : string) : Action W bool :=
  click_element this (Some "svg[aria-label='New post']") None None None ;;;
  click_element this (Some "div[aria-hidden='false'] a:first-child")
                None None None ;;;
  write this "input[type=file]" image_path false false false None None ;;;
  crop <- wait_for_dialog fuel this "div[aria-label='Crop']"
            "Waiting for crop dialog" 20 ;;
  if negb crop then raise (mkExn TimeoutException "Crop dialog not found")
  else
  buttons <- find_elements this "div[aria-label='Crop'] div[role=button]" ;;
  click_first_labelled this "Next" buttons ;;;
  edit <- wait_for_dialog fuel this "div[aria-label='Edit']"
            "Waiting for edit dialog" 20 ;;
  if negb edit then raise (mkExn TimeoutException "Edit dialog not found")
  else
  buttons <- find_elements this "div[aria-label='Edit'] div[role=button]" ;;
  click_first_labelled this "Next" buttons ;;;
  create <- wait_for_dialog fuel this "div[aria-label='Create new post']"
              "Waiting for create new post dialog" 20 ;;
  if negb create
  then raise (mkExn TimeoutException "Create new post dialog not found")
  else
  write this "div[role=textbox]" caption false true true None None ;;;
  buttons <- find_elements this
               "div[aria-label='Create new post'] div[role=button]" ;;
  click_first_labelled this "Share" buttons ;;;
  done <- wait_until fuel
            (l <- find_elements this "div[role=dialog]" ;;
             ret (negb (truthy l)))
            (mkWaitKwargs None None None None (Some 60)
                          (Some "Waiting for confirmation") None) ;;
  if negb done
  then raise (mkExn TimeoutException "Unexpected confirmation error")
  else ret true.

(** lines 317-365. *)
Definition post_image (fuel : nat) (self : InstagramBot)
           (image_path caption : string) : Action W bool :=
  try_except
    (found <- os_path_exists image_path ;;
     if negb found
     then raise (mkExn FileNotFoundError
                   ("Image file not found: " ++ image_path))
     else
       let file_extension :=
         str_lower (snd (splitext os_flavour image_path)) in
       if negb (str_in file_extension allowed_extensions)
       then raise (mkExn ValueError
                     ("Unsupported file type: " ++ file_extension))
       else post_steps fuel (handler self) image_path caption)
    [Exception]
    (reraise_as "Post failed: ").

End Script.

Arguments wait_kwargs W : clear implicits.

(** ** Vocabulary of the properties *)

Definition is_invoke (ev : event) : bool :=
  match ev with EvInvoke => true | _ => false end.

Definition is_condition (ev : event) : bool :=
  match ev with EvCondition => true | _ => false end.

Definition is_after_loop (ev : event) : bool :=
  match ev with EvHook after_loop_hook => true | _ => false end.

Definition is_sleep (ev : event) : bool :=
  match ev with EvSleep _ => true | _ => false end.

(** What polling for a selector, and for the crop dialog in particular, may
    leave in the trace. *)
Definition crop_selector : string := "div[aria-label='Crop']".

Definition is_poll_of (selector : string) (ev : event) : bool :=
  match ev with
  | EvHook _ | EvCondition | EvPrint _ | EvSleep _ => true
  | EvDriver (DFindElements css) => String.eqb css selector
  | _ => false
  end.

Definition is_crop_poll : event -> bool := is_poll_of crop_selector.

Definition is_quit (ev : event) : bool :=
  match ev with EvDriver DQuit => true | _ => false end.

Definition count_ev (p : event -> bool) (tr : list event) : nat :=
  List.length (filter p tr).

Section Vocabulary.
Context {W : Type} `{Env W}.

(** How often the decorated function, the polled condition and the
    after-loop hook have been called so far. *)
Definition invocations (st : St W) : nat := count_ev is_invoke (trace st).
Definition evaluations (st : St W) : nat := count_ev is_condition (trace st).
Definition after_loops (st : St W) : nat := count_ev is_after_loop (trace st).
Definition sleeps (st : St W) : nat := count_ev is_sleep (trace st).

(** A caller-supplied callable that leaves no entry of its own in the
    trace, so that the entries counted are those of the decorator. *)
Definition silent {A : Type} (m : Action W A) : Prop :=
  forall st, trace (snd (m st)) = trace st.

(** A callable that comes back, with a value or an exception. *)
Definition comes_back {A : Type} (m : Action W A) : Prop :=
  forall st, fst (m st) <> OutOfFuel.

(** A callable that returns normally. *)
Definition returns {A : Type} (m : Action W A) : Prop :=
  forall st, exists a, fst (m st) = Ret a.

Definition on_hooks (P : Action W unit -> Prop) (kw : wait_kwargs W) : Prop :=
  let on h := match h with Some m => P m | None => True end in
  on (before_loop kw) /\ on (in_loop_before kw) /\
  on (in_loop_after kw) /\ on (after_loop kw).

(** A predicate that never becomes true. *)
Definition never_true (condition_func : Action W bool) : Prop :=
  forall st, fst (condition_func st) = Ret false.

(** An operation that always raises a transient interaction fault. *)
Definition always_transient {A : Type} (func : Action W A) : Prop :=
  forall st, exists e, fst (func st) = Raise e /\
                       isinstance e COMMON_EXCEPTIONS = true.

(** Polling starts in [st] with [dots] dots to print; the predicate is
    false at its first [k - 1] evaluations and true at the [k]-th, and the
    hooks in between return. *)
Fixpoint first_true_at (k : nat) (condition_func : Action W bool)
         (kw : wait_kwargs W) (dots : nat) (st : St W) : Prop :=
  match k with
  | O => False
  | S k' =>
      match (call_hook in_loop_before_hook (in_loop_before kw) ;;;
             emit EvCondition ;;; condition_func) st with
      | (Ret true, _) => k' = O
      | (Ret false, st1) =>
          match (print (kwargs_get (message kw) "Waiting"
                        ++ str_repeat "." dots) ;;;
                 call_hook in_loop_after_hook (in_loop_after kw) ;;;
                 time_sleep (kwargs_get (sleep kw) 500) ;;;
                 print (str_repeat " " 100)) st1 with
          | (Ret _, st2) =>
              first_true_at k' condition_func kw
                (if Nat.ltb 2 dots then 1%nat else (dots + 1)%nat) st2
          | _ => False
          end
      | _ => False
      end
  end.

(** The terminal error of the retry decorator. *)
Definition max_retries_reached : exn :=
  mkExn Exception "Maximum retries reached!".

(** [wait_until] called with a budget and nothing else. *)
Definition budget (M : Z) : wait_kwargs W :=
  mkWaitKwargs None None None None (Some M) None None.

(** Lines 335-337 of [post_image]: open the composer, choose the new post
    entry, hand the path to the file input. *)
Definition upload_steps (this : BrowserHandler) (image_path : string)
  : Action W unit :=
  click_element this (Some "svg[aria-label='New post']") None None None ;;;
  click_element this (Some "div[aria-hidden='false'] a:first-child")
                None None None ;;;
  write this "input[type=file]" image_path false false false None None.

(** The trace of [st'] is that of [st] with events in front that all
    satisfy [p]. *)
Definition extends_by (p : event -> bool) (st st' : St W) : Prop :=
  exists new, trace st' = (new ++ trace st)%list /\ forallb p new = true.

(** How often [driver.quit()] has been called so far. *)
Definition quits (st : St W) : nat := count_ev is_quit (trace st).

End Vocabulary.

(** ** Stub environments, for running the script on concrete inputs

    The world is a counter of the calls made to a stub predicate.  [files]
    are the paths that exist and [dom] gives the elements matching a
    selector; every other driver call succeeds. *)
Definition stub_env (files : list string) (dom : string -> list element)
  : Env nat := {|
  os_flavour := posix;
  elapse := fun _ w => w;
  path_exists := fun p _ => str_in p files;
  popen := fun _ w => w;
  driver_get := fun _ w => (Ok tt, w);
  driver_find_elements := fun css w => (Ok (dom css), w);
  wait_until_condition := fun _ _ w => (Ok (One 0%nat), w);
  driver_execute_script := fun _ _ w => (Ok tt, w);
  element_clear := fun _ w => (Ok tt, w);
  element_send_keys := fun _ _ w => (Ok tt, w);
  element_click := fun _ w => (Ok tt, w);
  element_get_property := fun _ _ w => (Ok "Next", w);
  driver_quit := fun w => (Ok tt, w);
  sb_exit := fun w => (Ok tt, w)
|}.

(** A page on which nothing is ever found, and one showing the landmark
    of a logged-in session. *)
Definition empty_page : Env nat := stub_env ["/tmp/photo.jpg"] (fun _ => []).

Definition home_page : Env nat :=
  stub_env [] (fun css => if String.eqb css "svg[aria-label=Home]"
                          then [7%nat] else []).

Definition st0 : St nat := mkSt 0%nat [].

(** Stub callables: a predicate that is never true, one that is true from
    its [k]-th call on, and operations that always raise. *)
Definition stub_false : Action nat bool := lift (fun w => (Ok false, S w)).

Definition stub_true_from (k : nat) : Action nat bool :=
  lift (fun w => (Ok (Nat.leb k (S w)), S w)).

Definition stub_raise (c : exc_class) : Action nat unit :=
  lift (fun w => (Fault (mkExn c "stub"), S w)).

(** A handler with a live session on Linux, and a bot on it. *)
Definition live_handler : BrowserHandler :=
  mkBrowserHandler "LINUX" "/tmp/ProfileTemp" (Some 1%nat) (Some 2%nat)
                   (Some 3%nat) (Some 4%nat).

Definition fresh_handler : BrowserHandler :=
  mkBrowserHandler "LINUX" "/tmp/ProfileTemp" None None None None.

Definition live_bot : InstagramBot := mkInstagramBot live_handler "user" "secret".

(** ** lines 32-53: [GoogleDriveDownloader], the parts without network *)

Module Drive.

(** The character class [[a-zA-Z0-9_-]]. *)
Definition is_id_char (c : ascii) : bool :=
  let n := nat_of_ascii c in
  (Nat.leb 97 n && Nat.leb n 122) || (Nat.leb 65 n && Nat.leb n 90) ||
  (Nat.leb 48 n && Nat.leb n 57) || Nat.eqb n 95 || Nat.eqb n 45.

(** [s] starts with the literal [lit]; what follows it. *)
Fixpoint after_literal (lit s : string) : option string :=
  match lit with
  | EmptyString => Some s
  | String a lit' =>
      match s with
      | EmptyString => None
      | String b s' => if Ascii.eqb a b then after_literal lit' s' else None
      end
  end.

(** The longest run of class characters at the start of [s], which is what
    the greedy group [([a-zA-Z0-9_-]+)] captures when it is not empty. *)
Fixpoint id_run (s : string) : string :=
  match s with
  | EmptyString => EmptyString
  | String c s' => if is_id_char c then String c (id_run s') else EmptyString
  end.

(** A pattern of the script is an alternation of literals followed by the
    group.  Matching it at the start of [s]: the alternatives are tried in
    order, and one whose literal is not followed by a class character
    fails. *)
Fixpoint match_here (literals : list string) (s : string) : option string :=
  match literals with
  | [] => None
  | lit :: rest =>
      match after_literal lit s with
      | Some tail =>
          match id_run tail with
          | EmptyString => match_here rest s
          | g => Some g
          end
      | None => match_here rest s
      end
  end.

(** [re.search(pattern, s)] followed by [match.group(1)]: the match at the
    leftmost position that has one. *)
Fixpoint re_search (literals : list string) (s : string) : option string :=
  match match_here literals s with
  | Some g => Some g
  | None =>
      match s with
      | EmptyString => None
      | String _ s' => re_search literals s'
      end
  end.

(** lines 37-41, each pattern as its literals. *)
Definition patterns : list (list string) :=
  [ ["drive.google.com/file/d/"; "drive.google.com/open?id="];
    ["id="];
    ["/d/"] ].

(** The [for pattern in patterns] loop. *)
Fixpoint first_match (ps : list (list string)) (drive_url : string)
  : option string :=
  match ps with
  | [] => None
  | pattern :: rest =>
      match re_search pattern drive_url with
      | Some g => Some g
      | None => first_match rest drive_url
      end
  end.

(** lines 35-48. *)
Definition extract_file_id (drive_url : string) : reply string :=
  match first_match patterns drive_url with
  | Some g => Ok g
  | None =>
      Fault (mkExn ValueError
               ("Could not extract file ID from Google Drive URL: "
                ++ drive_url))
  end.

(** lines 51-53. *)
Definition get_direct_download_url (file_id : string) : string :=
  "https://drive.google.com/uc?export=download&id=" ++ file_id.

(** Every character of [s] satisfies [p]. *)
Fixpoint all_chars (p : ascii -> bool) (s : string) : bool :=
  match s with
  | EmptyString => true
  | String c s' => p c && all_chars p s'
  end.

(** A file identifier: a non-empty string of class characters. *)
Definition is_file_id (s : string) : Prop :=
  s <> EmptyString /\ all_chars is_id_char s = true.

(** What may follow an identifier in a URL: nothing, or a character
    outside the class. *)
Definition ends_id (rest : string) : Prop :=
  match rest with
  | EmptyString => True
  | String c _ => is_id_char c = false
  end.

(** A character that is neither a slash nor an equals sign. *)
Definition is_plain_char (c : ascii) : bool :=
  negb (Ascii.eqb c "/" || Ascii.eqb c "=").

End Drive.

(** ** The retry decorator under the recursion limit

    [wrapper] retries by calling itself inside the [except] block (line
    156), so every pending retry holds a call frame.  [frames] is the
    number of calls the interpreter still allows when the decorated
    function is called: the recursion limit, 1000 unless changed, less the
    frames in use.  An activation of the wrapper takes one, the call of
    [func] one more; a call that finds none left raises [RecursionError],
    which is no instance of [COMMON_EXCEPTIONS] and leaves the wrapper.
    [wrapper] above is the decorator with frames to spare. *)

Definition recursion_error : exn :=
  mkExn RecursionError "maximum recursion depth exceeded".

Section RecursionLimit.
Context {W : Type} `{Env W}.

Fixpoint wrapper_in (frames : nat) {A : Type} (func : Action W A)
         (retry max_retries : Z) (st : St W) : outcome A * St W :=
  match frames with
  | O => (Raise recursion_error, st)
  | S room =>
      if retry >=? max_retries
      then (Raise (mkExn Exception "Maximum retries reached!"), st)
      else
        match room with
        | O => (Raise recursion_error, st)
        | S _ =>
            match (emit EvInvoke ;;; func) st with
            | (Ret a, st1) => (Ret a, st1)
            | (OutOfFuel, st1) => (OutOfFuel, st1)
            | (Raise e, st1) =>
                if isinstance e COMMON_EXCEPTIONS
                then wrapper_in room func (retry + 1) max_retries
                                (snd (time_sleep 5000 st1))
                else (Raise e, st1)
            end
        end
  end.


(** The state after [n] runs of [func] that each ended in a transient
    fault: every run is announced, made on the state the previous sleep
    left, and followed by five seconds of sleep. *)
Fixpoint failed_attempts {A : Type} (func : Action W A) (n : nat)
         (st : St W) : St W :=
  match n with
  | O => st
  | S k =>
      failed_attempts func k
        (snd (time_sleep 5000 (snd (func (snd (emit EvInvoke st))))))
  end.

End RecursionLimit.

(** ** Further vocabulary *)

Definition is_popen (ev : event) : bool :=
  match ev with EvPopen _ => true | _ => false end.

(** What reading the labels of buttons may leave in the trace. *)
Definition is_label_read (ev : event) : bool :=
  match ev with
  | EvInvoke => true
  | EvDriver (DGetProperty _ name) => String.eqb name "innerText"
  | _ => false
  end.

(** What [login] and [post_image] hand to their caller: [True], or an
    exception that is a plain [Exception] carrying the prefix, or one that
    is no [Exception] at all and was let through. *)
Definition wrapped_result (prefix : string) (r : outcome bool) : Prop :=
  match r with
  | Ret b => b = true
  | Raise e =>
      (exn_class e = Exception /\ exists m, exn_msg e = prefix ++ m) \/
      isinstance e [Exception] = false
  | OutOfFuel => True
  end.

Section FurtherVocabulary.
Context {W : Type} `{Env W}.

(** How often a process has been spawned so far. *)
Definition popens (st : St W) : nat := count_ev is_popen (trace st).

(** What a run of [wait_until] with these keyword arguments may leave in
    the trace besides the events of its callables: hook and predicate
    calls, sleeps of the configured interval, the blank line, and the
    message followed by one to three dots. *)
Definition is_poller_event (kw : wait_kwargs W) (ev : event) : bool :=
  match ev with
  | EvHook _ | EvCondition => true
  | EvSleep ms => ms =? kwargs_get (sleep kw) 500
  | EvPrint s =>
      let msg := kwargs_get (message kw) "Waiting" in
      existsb (String.eqb s)
              [str_repeat " " 100; msg ++ "."; msg ++ ".."; msg ++ "..."]
  | _ => false
  end.

(** Lines 306-309 of [login]: type the credentials, submit, settle. *)
Definition credential_steps (self : InstagramBot) : Action W unit :=
  write (handler self) "[name='username']" (username self)
        false true true None None ;;;
  write (handler self) "[name='password']" (password self)
        false true true None None ;;;
  click_element (handler self) (Some "button[type=submit]") None None None ;;;
  time_sleep 5000.

(** Whether [kill_browser] gets as far as deleting the profile in this
    world: a driver to quit, a session context to leave, both calls
    answered without exception, deletion asked for, a platform it knows. *)
Definition deletes_profile (self : BrowserHandler) (delete_profile : bool)
           (w : W) : bool :=
  match driver self, driver_quit w with
  | Some _, (Ok _, w1) =>
      match sb_init self, sb_exit w1 with
      | Some _, (Ok _, _) =>
          delete_profile &&
          (str_in (platform self) ["LINUX"; "DARWIN"; "WINDOWS"])
      | _, _ => false
      end
  | _, _ => false
  end.

End FurtherVocabulary.

(** An operation that faults on its first call and answers 42 afterwards;
    the world counts the calls. *)
Definition stub_flaky : Action nat nat :=
  lift (fun w => if Nat.eqb w 0
                 then (Fault (mkExn StaleElementReferenceException "stale"), S w)
                 else (Ok 42%nat, S w)).

(** A dialog whose button 2 reads Next and whose other buttons read
    Back. *)
Definition dialog_page : Env nat := {|
  os_flavour := posix;
  elapse := fun _ w => w;
  path_exists := fun _ _ => true;
  popen := fun _ w => w;
  driver_get := fun _ w => (Ok tt, w);
  driver_find_elements := fun _ w => (Ok [], w);
  wait_until_condition := fun _ _ w => (Ok (One 0%nat), w);
  driver_execute_script := fun _ _ w => (Ok tt, w);
  element_clear := fun _ w => (Ok tt, w);
  element_send_keys := fun _ _ w => (Ok tt, w);
  element_click := fun _ w => (Ok tt, w);
  element_get_property :=
    fun e _ w => (Ok (if Nat.eqb e 2 then "Next" else "Back"), S w);
  driver_quit := fun w => (Ok tt, w);
  sb_exit := fun w => (Ok tt, w)
|}.


(** A page whose elements are never ready: every wait for an element
    times out. *)
Definition frozen_page : Env nat := {|
  os_flavour := posix;
  elapse := fun _ w => w;
  path_exists := fun _ _ => true;
  popen := fun _ w => w;
  driver_get := fun _ w => (Ok tt, w);
  driver_find_elements := fun _ w => (Ok [], w);
  wait_until_condition :=
    fun _ _ w => (Fault (mkExn TimeoutException "not ready"), S w);
  driver_execute_script := fun _ _ w => (Ok tt, w);
  element_clear := fun _ w => (Ok tt, w);
  element_send_keys := fun _ _ w => (Ok tt, w);
  element_click := fun _ w => (Ok tt, w);
  element_get_property := fun _ _ w => (Ok "Cancel", w);
  driver_quit := fun w => (Ok tt, w);
  sb_exit := fun w => (Ok tt, w)
|}.

(** ** Running the monad *)

Section MonadFacts.
Context {W : Type} `{Env W}.

Lemma bind_Ret {A B} (m : Action W A) (k : A -> Action W B) st a st1 :
  m st = (Ret a, st1) -> (x <- m ;; k x) st = k a st1.
Proof. unfold bind. intros ->. reflexivity. Qed.

Lemma bind_Raise {A B} (m : Action W A) (k : A -> Action W B) st e st1 :
  m st = (Raise e, st1) -> (x <- m ;; k x) st = (Raise e, st1).
Proof. unfold bind. intros ->. reflexivity. Qed.

Lemma bind_OutOfFuel {A B} (m : Action W A) (k : A -> Action W B) st st1 :
  m st = (OutOfFuel, st1) -> (x <- m ;; k x) st = (OutOfFuel, st1).
Proof. unfold bind. intros ->. reflexivity. Qed.

Lemma bind_emit {B} (ev : event) (k : Action W B) (st : St W) :
  (emit ev ;;; k) st = k (mkSt (world st) (ev :: trace st)).
Proof. reflexivity. Qed.

Lemma bind_print {B} (s : string) (k : Action W B) (st : St W) :
  (print s ;;; k) st = k (mkSt (world st) (EvPrint s :: trace st)).
Proof. reflexivity. Qed.

Lemma bind_time_sleep {B} (ms : Z) (k : Action W B) (st : St W) :
  (time_sleep ms ;;; k) st
  = k (mkSt (elapse ms (world st)) (EvSleep ms :: trace st)).
Proof. reflexivity. Qed.

Lemma silent_ret {A} (a : A) : silent (ret (W:=W) a).
Proof. intro st. reflexivity. Qed.

Lemma returns_ret {A} (a : A) : returns (ret (W:=W) a).
Proof. intro st. exists a. reflexivity. Qed.

Lemma comes_back_ret {A} (a : A) : comes_back (ret (W:=W) a).
Proof. intro st. discriminate. Qed.

Lemma silent_lift {A} (op : W -> reply A * W) : silent (lift op).
Proof. intro st. unfold lift. destruct (op (world st)) as [[a | e] w]; reflexivity. Qed.

Lemma comes_back_lift {A} (op : W -> reply A * W) : comes_back (lift op).
Proof.
  intro st. unfold lift. destruct (op (world st)) as [[a | e] w]; discriminate.
Qed.

Lemma returns_comes_back {A} (m : Action W A) : returns m -> comes_back m.
Proof. intros Hr st. destruct (Hr st) as [a ->]. discriminate. Qed.

End MonadFacts.

(** Case analysis on the first action of a sequence. *)
Ltac step_bind E :=
  match goal with
  | |- context [bind ?m ?k ?st] =>
      destruct (m st) as [[? | ? |] ?] eqn:E;
      [ rewrite (bind_Ret m k st _ _ E)
      | rewrite (bind_Raise m k st _ _ E)
      | rewrite (bind_OutOfFuel m k st _ E) ];
      cbv beta
  end.

(** ** The retry decorator *)

Section Retry.
Context {W : Type} `{Env W}.

(** The defining equation of [wrapper], as the source reads. *)
Lemma wrapper_eq {A : Type} (func : Action W A) (retry max_retries : Z)
      (st : St W) :
  wrapper func retry max_retries st =
  if retry >=? max_retries then (Raise max_retries_reached, st)
  else match (emit EvInvoke ;;; func) st with
       | (Ret a, st1) => (Ret a, st1)
       | (OutOfFuel, st1) => (OutOfFuel, st1)
       | (Raise e, st1) =>
           if isinstance e COMMON_EXCEPTIONS
           then wrapper func (retry + 1) max_retries
                        (snd (time_sleep 5000 st1))
           else (Raise e, st1)
       end.
Proof.
  rewrite wrapper_equation_1.
  destruct (Z_ge_lt_dec retry max_retries) as [Hge | Hlt];
    destruct (Z.geb_spec retry max_retries); try lia; [reflexivity |].
  unfold wrapper_unfold_clause_1.
  destruct ((emit EvInvoke ;;; func) st) as [[a | e |] st1]; try reflexivity.
  unfold wrapper_unfold_clause_1_clause_2.
  destruct (isinstance e COMMON_EXCEPTIONS); reflexivity.
Qed.

(** Entered with the counter at the ceiling, the wrapper refuses. *)
Lemma wrapper_refuses {A : Type} (func : Action W A) (retry max_retries : Z)
      (st : St W) :
  max_retries <= retry ->
  wrapper func retry max_retries st = (Raise max_retries_reached, st).
Proof.
  intro Hle. rewrite wrapper_eq.
  destruct (Z.geb_spec retry max_retries); [reflexivity | lia].
Qed.

(** One attempt that ends in an exception [e]. *)
Lemma wrapper_attempt_raises {A : Type} (func : Action W A)
      (retry max_retries : Z) (st st1 : St W) (e : exn) :
  retry < max_retries ->
  func (snd (emit EvInvoke st)) = (Raise e, st1) ->
  wrapper func retry max_retries st =
  if isinstance e COMMON_EXCEPTIONS
  then wrapper func (retry + 1) max_retries (snd (time_sleep 5000 st1))
  else (Raise e, st1).
Proof.
  intros Hlt Hf. rewrite wrapper_eq.
  destruct (Z.geb_spec retry max_retries); [lia |].
  unfold bind. simpl in *. rewrite Hf. reflexivity.
Qed.

Lemma wrapper_always_transient {A : Type} (func : Action W A)
      (max_retries : Z) :
  always_transient func -> silent func ->
  forall (n : nat) (retry : Z) (st : St W),
    n = Z.to_nat (max_retries - retry) ->
    exists st',
      wrapper func retry max_retries st = (Raise max_retries_reached, st') /\
      invocations st' = (invocations st + n)%nat /\
      sleeps st' = (sleeps st + n)%nat.
Proof.
  intros Htr Hsil. induction n as [| n IH]; intros retry st Hn.
  - exists st. split; [apply wrapper_refuses; lia | split; lia].
  - pose (sti := snd (emit EvInvoke st)).
    destruct (Htr sti) as (e & He & Hcommon).
    specialize (Hsil sti).
    destruct (func sti) as [o st1] eqn:Hf. simpl in He, Hsil. subst o.
    rewrite (wrapper_attempt_raises func retry max_retries st st1 e);
      [| lia | exact Hf].
    rewrite Hcommon.
    destruct (IH (retry + 1) (snd (time_sleep 5000 st1))) as (st' & E & I & S);
      [lia |].
    exists st'. split; [exact E |].
    rewrite I, S. unfold invocations, sleeps, count_ev. simpl.
    rewrite Hsil. simpl. lia.
Qed.

(** With frames to spare the depth-limited wrapper is the wrapper. *)
Lemma wrapper_in_enough_frames {A : Type} (func : Action W A)
      (max_retries : Z) :
  forall (frames : nat) (retry : Z) (st : St W),
    (Z.to_nat (max_retries - retry) < frames)%nat ->
    wrapper_in frames func retry max_retries st
    = wrapper func retry max_retries st.
Proof.
  induction frames as [| room IH]; intros retry st Hroom; [lia |].
  rewrite wrapper_eq. cbn [wrapper_in].
  destruct (Z.geb_spec retry max_retries); [reflexivity |].
  destruct room as [| room']; [lia |].
  destruct ((emit EvInvoke ;;; func) st) as [[a | e |] st1]; try reflexivity.
  destruct (isinstance e COMMON_EXCEPTIONS); [| reflexivity].
  apply IH. lia.
Qed.




(** The announcements and sleeps of failed runs of a silent operation. *)
Lemma failed_attempts_counts {A : Type} (func : Action W A) :
  silent func ->
  forall (n : nat) (st : St W),
    invocations (failed_attempts func n st) = (invocations st + n)%nat /\
    sleeps (failed_attempts func n st) = (sleeps st + n)%nat.
Proof.
  intros Hsil. induction n as [| n IH]; intro st; cbn [failed_attempts];
    [split; lia |].
  destruct (IH (snd (time_sleep 5000 (snd (func (snd (emit EvInvoke st)))))))
    as [I S].
  rewrite I, S. unfold invocations, sleeps, count_ev.
  cbn [time_sleep snd trace]. rewrite (Hsil (snd (emit EvInvoke st))).
  cbn. split; lia.
Qed.


(** Every class of the tuple derives from [WebDriverException], which is
    in the tuple itself: the clause catches the Selenium faults and only
    them. *)
Lemma common_exceptions_are_driver_faults (e : exn) :
  isinstance e COMMON_EXCEPTIONS = issubclass (exn_class e) WebDriverException.
Proof. destruct e as [c msg]. destruct c; reflexivity. Qed.

(** C4.  An attempt of a decorated call that ends in an exception [e] is
    followed by a retry (five seconds of sleep, then the wrapper again with
    the counter incremented) exactly when [e] is an instance of one of the
    seven classes of [COMMON_EXCEPTIONS]; any other exception leaves the
    wrapper at once, in the state the operation left it, with no sleep and
    no further attempt. *)
Theorem exceptional_handler_retries_exactly_common_exceptions
        {A : Type} (func : Action W A) (retry max_retries : option Z)
        (st st1 : St W) (e : exn) :
  kwargs_get retry 0 < kwargs_get max_retries 2 ->
  func (snd (emit EvInvoke st)) = (Raise e, st1) ->
  (isinstance e [NoSuchElementException; TimeoutException;
                 StaleElementReferenceException;
                 ElementClickInterceptedException; WebDriverException;
                 ElementNotInteractableException;
                 NoSuchAttributeException] = true ->
   exceptional_handler func retry max_retries st
   = exceptional_handler func (Some (kwargs_get retry 0 + 1))
                         (Some (kwargs_get max_retries 2))
                         (snd (time_sleep 5000 st1))) /\
  (isinstance e [NoSuchElementException; TimeoutException;
                 StaleElementReferenceException;
                 ElementClickInterceptedException; WebDriverException;
                 ElementNotInteractableException;
                 NoSuchAttributeException] = false ->
   exceptional_handler func retry max_retries st = (Raise e, st1)).
Proof.
  intros Hlt Hf. unfold exceptional_handler.
  rewrite (wrapper_attempt_raises func _ _ st st1 e Hlt Hf).
  fold COMMON_EXCEPTIONS.
  split; intros ->; reflexivity.
Qed.

End Retry.



(** A [ValueError] leaves at the first attempt; a [TimeoutException] is
    retried. *)
Lemma exceptional_handler_retries_exactly_common_exceptions_witness :
  exceptional_handler (H:=empty_page) (stub_raise ValueError) None None st0
  = (Raise (mkExn ValueError "stub"), mkSt 1%nat [EvInvoke]) /\
  exceptional_handler (H:=empty_page) (stub_raise TimeoutException)
                      None None st0
  = exceptional_handler (H:=empty_page) (stub_raise TimeoutException)
                        (Some 1) (Some 2)
                        (mkSt 1%nat [EvSleep 5000; EvInvoke]).
Proof.
  split.
  - apply (exceptional_handler_retries_exactly_common_exceptions
             (H:=empty_page) (stub_raise ValueError) None None st0
             (mkSt 1%nat [EvInvoke]) (mkExn ValueError "stub"));
      [simpl; lia | reflexivity | reflexivity].
  - apply (exceptional_handler_retries_exactly_common_exceptions
             (H:=empty_page) (stub_raise TimeoutException) None None st0
             (mkSt 1%nat [EvInvoke]) (mkExn TimeoutException "stub"));
      [simpl; lia | reflexivity | reflexivity].
Defined.

(** ** The condition poller *)

Section Poller.
Context {W : Type} `{Env W}.

(** A property of the hooks given holds of the hooks called, the default
    included. *)
Lemma on_hooks_called (P : Action W unit -> Prop) (kw : wait_kwargs W) :
  P (ret tt) -> on_hooks P kw ->
  P (kwargs_get (before_loop kw) (ret tt)) /\
  P (kwargs_get (in_loop_before kw) (ret tt)) /\
  P (kwargs_get (in_loop_after kw) (ret tt)) /\
  P (kwargs_get (after_loop kw) (ret tt)).
Proof.
  intros Hd (H1 & H2 & H3 & H4).
  destruct kw as [bl ilb ila al mt msg sl]; simpl in *.
  destruct bl, ilb, ila, al; simpl; auto.
Qed.

Lemma call_hook_returns (h : hook_name) (hook : option (Action W unit))
      (st : St W) :
  silent (kwargs_get hook (ret tt)) -> returns (kwargs_get hook (ret tt)) ->
  exists st1, call_hook h hook st = (Ret tt, st1) /\
              trace st1 = EvHook h :: trace st.
Proof.
  intros Hs Hr. unfold call_hook, bind, emit.
  specialize (Hs (mkSt (world st) (EvHook h :: trace st))).
  destruct (Hr (mkSt (world st) (EvHook h :: trace st))) as [[] Ha].
  destruct (kwargs_get hook (ret tt) _) as [o st1]. simpl in *. subst o.
  exists st1. split; [reflexivity | assumption].
Qed.

Lemma condition_false (c : Action W bool) (st : St W) :
  silent c -> never_true c ->
  exists st1, (emit EvCondition ;;; c) st = (Ret false, st1) /\
              trace st1 = EvCondition :: trace st.
Proof.
  intros Hs Hn. unfold bind, emit.
  specialize (Hs (mkSt (world st) (EvCondition :: trace st))).
  specialize (Hn (mkSt (world st) (EvCondition :: trace st))).
  destruct (c _) as [o st1]. simpl in *. subst o.
  exists st1. split; [reflexivity | assumption].
Qed.

(** The end of an iteration whose after hook returns: progress line, hook,
    sleep, blank line; none of them is an evaluation. *)
Lemma iteration_tail {B} (kw : wait_kwargs W) (dots : nat)
      (k : Action W B) (st : St W) :
  silent (kwargs_get (in_loop_after kw) (ret tt)) ->
  returns (kwargs_get (in_loop_after kw) (ret tt)) ->
  exists st1,
    (print (kwargs_get (message kw) "Waiting" ++ str_repeat "." dots) ;;;
     call_hook in_loop_after_hook (in_loop_after kw) ;;;
     time_sleep (kwargs_get (sleep kw) 500) ;;;
     print (str_repeat " " 100) ;;; k) st = k st1 /\
    evaluations st1 = evaluations st /\ after_loops st1 = after_loops st.
Proof.
  intros Hs Hr.
  set (sta := mkSt (world st)
                (EvPrint (kwargs_get (message kw) "Waiting"
                          ++ str_repeat "." dots) :: trace st)).
  destruct (call_hook_returns in_loop_after_hook _ sta Hs Hr)
    as (st1 & E1 & T1).
  eexists. split.
  - unfold bind at 1. unfold print at 1. unfold emit at 1. fold sta.
    rewrite (bind_Ret _ _ _ _ _ E1). reflexivity.
  - unfold evaluations, after_loops, count_ev. simpl. rewrite T1. simpl.
    split; reflexivity.
Qed.

(** With a budget other than -1 and a predicate that stays false, the loop
    gives up at the evaluation made when [attempt] has reached the budget:
    [max_attempts - attempt] failed evaluations are followed by one more. *)
Lemma wait_loop_never_true (c : Action W bool) (kw : wait_kwargs W)
      (max_attempts : Z) :
  silent c -> never_true c ->
  silent (kwargs_get (in_loop_before kw) (ret tt)) ->
  returns (kwargs_get (in_loop_before kw) (ret tt)) ->
  silent (kwargs_get (in_loop_after kw) (ret tt)) ->
  returns (kwargs_get (in_loop_after kw) (ret tt)) ->
  max_attempts <> -1 ->
  forall (n fuel dots : nat) (attempt : Z) (st : St W),
    n = Z.to_nat (max_attempts - attempt) -> (n < fuel)%nat ->
    exists st',
      wait_loop fuel c kw max_attempts dots attempt st = (Ret true, st') /\
      evaluations st' = (evaluations st + S n)%nat /\
      after_loops st' = after_loops st.
Proof.
  intros Hsc Hnc Hsb Hrb Hsa Hra HM.
  induction n as [| n IH]; intros fuel dots attempt st Hn Hfuel;
    (destruct fuel as [| fuel]; [lia |]); cbn [wait_loop];
    destruct (call_hook_returns in_loop_before_hook _ st Hsb Hrb)
      as (st1 & E1 & T1);
    rewrite (bind_Ret _ _ _ _ _ E1);
    destruct (condition_false c st1 Hsc Hnc) as (st2 & E2 & T2);
    rewrite (bind_Ret _ _ _ _ _ E2).
  - assert (negb (max_attempts =? -1) && (attempt >=? max_attempts) = true)
      as ->.
    { apply andb_true_iff.
      split; [apply negb_true_iff, Z.eqb_neq; lia | apply Z.geb_le; lia]. }
    exists st2. split; [reflexivity |].
    unfold evaluations, after_loops, count_ev. rewrite T2, T1. simpl. lia.
  - assert (negb (max_attempts =? -1) && (attempt >=? max_attempts) = false)
      as ->.
    { apply andb_false_iff. right. rewrite Z.geb_leb. apply Z.leb_gt. lia. }
    cbv zeta.
    destruct (iteration_tail kw dots
                (wait_loop fuel c kw max_attempts
                   (if (2 <? dots)%nat then 1%nat else (dots + 1)%nat)
                   (attempt + 1))
                st2 Hsa Hra) as (st3 & E3 & V3 & A3).
    rewrite E3.
    destruct (IH fuel (if (2 <? dots)%nat then 1%nat else (dots + 1)%nat)
                 (attempt + 1) st3) as (st' & E & V & A); [lia | lia |].
    exists st'. split; [exact E |].
    rewrite V, A, V3, A3. unfold evaluations, after_loops, count_ev.
    rewrite T2, T1. simpl. lia.
Qed.

(** The whole poller on a predicate that stays false, for any budget other
    than the sentinel -1. *)
Lemma wait_until_never_true (c : Action W bool) (kw : wait_kwargs W)
      (max_attempts : Z) (fuel : nat) (st : St W) :
  max_tries kw = Some max_attempts -> max_attempts <> -1 ->
  silent c -> never_true c ->
  on_hooks silent kw -> on_hooks returns kw ->
  (Z.to_nat max_attempts < fuel)%nat ->
  exists st',
    wait_until fuel c kw st = (Ret false, st') /\
    evaluations st' = (evaluations st + S (Z.to_nat max_attempts))%nat /\
    after_loops st' = S (after_loops st).
Proof.
  intros Hkw HM Hsc Hnc Hs Hr Hfuel.
  destruct (on_hooks_called silent kw (silent_ret tt) Hs)
    as (Hs1 & Hs2 & Hs3 & Hs4).
  destruct (on_hooks_called returns kw (returns_ret tt) Hr)
    as (Hr1 & Hr2 & Hr3 & Hr4).
  unfold wait_until. rewrite Hkw. cbn [kwargs_get].
  destruct (call_hook_returns before_loop_hook _ st Hs1 Hr1)
    as (st1 & E1 & T1).
  rewrite (bind_Ret _ _ _ _ _ E1).
  destruct (wait_loop_never_true c kw max_attempts Hsc Hnc Hs2 Hr2 Hs3 Hr3 HM
              (Z.to_nat max_attempts) fuel 1%nat 0 st1)
    as (st2 & E2 & V2 & A2); [f_equal; lia | exact Hfuel |].
  rewrite (bind_Ret _ _ _ _ _ E2).
  destruct (call_hook_returns after_loop_hook _ st2 Hs4 Hr4)
    as (st3 & E3 & T3).
  rewrite (bind_Ret _ _ _ _ _ E3).
  exists st3. split; [reflexivity |].
  unfold evaluations, after_loops, count_ev in *.
  rewrite T3. simpl. rewrite V2, A2, T1. simpl. lia.
Qed.

(** C1.  What the code does where the claim promises [M] evaluations: for
    every budget [M >= 0] and every predicate that is never true, the
    poller returns false after [M + 1] evaluations of the predicate, one
    more than the budget, and the after-loop hook is called once. *)
Theorem wait_until_never_true_makes_one_evaluation_too_many
        (c : Action W bool) (kw : wait_kwargs W) (M : Z) (fuel : nat)
        (st : St W) :
  max_tries kw = Some M -> 0 <= M ->
  silent c -> never_true c ->
  on_hooks silent kw -> on_hooks returns kw ->
  (Z.to_nat M < fuel)%nat ->
  exists st',
    wait_until fuel c kw st = (Ret false, st') /\
    Z.of_nat (evaluations st') = Z.of_nat (evaluations st) + M + 1 /\
    after_loops st' = S (after_loops st).
Proof.
  intros Hkw HM Hsc Hnc Hs Hr Hfuel.
  destruct (wait_until_never_true c kw M fuel st Hkw ltac:(lia)
              Hsc Hnc Hs Hr Hfuel) as (st' & E & V & A).
  exists st'. split; [exact E | split; [lia | exact A]].
Qed.

(** Without a budget the loop never sets [not_completed]. *)
Lemma wait_loop_unbounded_never_gives_up (c : Action W bool)
      (kw : wait_kwargs W) :
  forall (fuel dots : nat) (attempt : Z) (st : St W),
    fst (wait_loop fuel c kw (-1) dots attempt st) <> Ret true.
Proof.
  induction fuel as [| fuel IH]; intros dots attempt st; [discriminate |].
  cbn [wait_loop].
  step_bind E1; try discriminate.
  step_bind E2; try discriminate.
  match goal with b : bool |- _ => destruct b end; [discriminate |].
  change (negb (-1 =? -1) && (attempt >=? -1)) with false. cbv iota zeta.
  rewrite bind_print.
  step_bind E3; try discriminate.
  rewrite bind_time_sleep, bind_print.
  apply IH.
Qed.

Lemma wait_until_unbounded_never_false (c : Action W bool)
      (kw : wait_kwargs W) (fuel : nat) (st : St W) :
  kwargs_get (max_tries kw) (-1) = -1 ->
  fst (wait_until fuel c kw st) <> Ret false.
Proof.
  intro Hkw. unfold wait_until. cbv zeta. rewrite Hkw.
  step_bind E1; try discriminate.
  step_bind E2; try discriminate.
  match goal with b : bool |- _ => destruct b end.
  - exfalso.
    match type of E2 with
    | ?run = _ => assert (Hl : fst run <> Ret true)
                    by apply wait_loop_unbounded_never_gives_up
    end.
    rewrite E2 in Hl. apply Hl. reflexivity.
  - step_bind E3; discriminate.
Qed.

(** Without a budget and with a predicate that stays false, every
    iteration the fuel allows is made and ends in another one. *)
Lemma wait_loop_unbounded_never_true (c : Action W bool)
      (kw : wait_kwargs W) :
  silent c -> never_true c ->
  silent (kwargs_get (in_loop_before kw) (ret tt)) ->
  returns (kwargs_get (in_loop_before kw) (ret tt)) ->
  silent (kwargs_get (in_loop_after kw) (ret tt)) ->
  returns (kwargs_get (in_loop_after kw) (ret tt)) ->
  forall (fuel dots : nat) (attempt : Z) (st : St W),
    exists st',
      wait_loop fuel c kw (-1) dots attempt st = (OutOfFuel, st') /\
      evaluations st' = (evaluations st + fuel)%nat.
Proof.
  intros Hsc Hnc Hsb Hrb Hsa Hra.
  induction fuel as [| fuel IH]; intros dots attempt st.
  - exists st. split; [reflexivity | lia].
  - cbn [wait_loop].
    destruct (call_hook_returns in_loop_before_hook _ st Hsb Hrb)
      as (st1 & E1 & T1).
    rewrite (bind_Ret _ _ _ _ _ E1).
    destruct (condition_false c st1 Hsc Hnc) as (st2 & E2 & T2).
    rewrite (bind_Ret _ _ _ _ _ E2).
    change (negb (-1 =? -1) && (attempt >=? -1)) with false. cbv iota zeta.
    destruct (iteration_tail kw dots
                (wait_loop fuel c kw (-1)
                   (if (2 <? dots)%nat then 1%nat else (dots + 1)%nat)
                   (attempt + 1))
                st2 Hsa Hra) as (st3 & E3 & V3 & _).
    rewrite E3.
    destruct (IH (if (2 <? dots)%nat then 1%nat else (dots + 1)%nat)
                 (attempt + 1) st3) as (st' & E & V).
    exists st'. split; [exact E |].
    rewrite V, V3. unfold evaluations, count_ev. rewrite T2, T1. simpl. lia.
Qed.

Lemma wait_until_unbounded_never_true (c : Action W bool)
      (kw : wait_kwargs W) (fuel : nat) (st : St W) :
  kwargs_get (max_tries kw) (-1) = -1 ->
  silent c -> never_true c ->
  on_hooks silent kw -> on_hooks returns kw ->
  exists st',
    wait_until fuel c kw st = (OutOfFuel, st') /\
    evaluations st' = (evaluations st + fuel)%nat.
Proof.
  intros Hkw Hsc Hnc Hs Hr.
  destruct (on_hooks_called silent kw (silent_ret tt) Hs)
    as (Hs1 & Hs2 & Hs3 & _).
  destruct (on_hooks_called returns kw (returns_ret tt) Hr)
    as (Hr1 & Hr2 & Hr3 & _).
  unfold wait_until. cbv zeta. rewrite Hkw.
  destruct (call_hook_returns before_loop_hook _ st Hs1 Hr1)
    as (st1 & E1 & T1).
  rewrite (bind_Ret _ _ _ _ _ E1).
  destruct (wait_loop_unbounded_never_true c kw Hsc Hnc Hs2 Hr2 Hs3 Hr3
              fuel 1%nat 0 st1) as (st2 & E2 & V2).
  rewrite (bind_OutOfFuel _ _ _ _ E2).
  exists st2. split; [reflexivity |].
  rewrite V2. unfold evaluations, count_ev. rewrite T1. reflexivity.
Qed.

(** C3, as the code has it.  The poller is unbounded for the budget -1
    only, which is also the default: then it never returns false, and on a
    predicate that stays false it makes every evaluation the fuel allows
    and does not return.  A budget below -1 is no budget at all: on such a
    predicate the poller returns false after a single evaluation. *)
Theorem wait_until_unbounded_exactly_for_minus_one
        (c : Action W bool) (kw : wait_kwargs W) (st : St W) :
  (kwargs_get (max_tries kw) (-1) = -1 ->
   (forall fuel, fst (wait_until fuel c kw st) <> Ret false) /\
   (silent c -> never_true c -> on_hooks silent kw -> on_hooks returns kw ->
    forall fuel,
      fst (wait_until fuel c kw st) = OutOfFuel /\
      evaluations (snd (wait_until fuel c kw st))
      = (evaluations st + fuel)%nat)) /\
  (forall M, max_tries kw = Some M -> M < -1 ->
   silent c -> never_true c -> on_hooks silent kw -> on_hooks returns kw ->
   forall fuel, (0 < fuel)%nat ->
     exists st', wait_until fuel c kw st = (Ret false, st') /\
                 evaluations st' = S (evaluations st)).
Proof.
  split.
  - intro Hkw. split.
    + intro fuel. apply wait_until_unbounded_never_false. exact Hkw.
    + intros Hsc Hnc Hs Hr fuel.
      destruct (wait_until_unbounded_never_true c kw fuel st Hkw Hsc Hnc Hs Hr)
        as (st' & E & V).
      rewrite E. split; [reflexivity | exact V].
  - intros M Hkw HM Hsc Hnc Hs Hr fuel Hfuel.
    destruct (wait_until_never_true c kw M fuel st Hkw ltac:(lia)
                Hsc Hnc Hs Hr) as (st' & E & V & _).
    { replace (Z.to_nat M) with 0%nat by lia. exact Hfuel. }
    exists st'. split; [exact E |].
    rewrite V. replace (Z.to_nat M) with 0%nat by lia. lia.
Qed.

(** What a call of a silent hook or predicate leaves in the trace,
    however it ends. *)
Lemma call_hook_trace (h : hook_name) (hook : option (Action W unit))
      (st st1 : St W) (o : outcome unit) :
  silent (kwargs_get hook (ret tt)) ->
  call_hook h hook st = (o, st1) -> trace st1 = EvHook h :: trace st.
Proof.
  intros Hs E. unfold call_hook in E. rewrite bind_emit in E.
  specialize (Hs (mkSt (world st) (EvHook h :: trace st))).
  rewrite E in Hs. exact Hs.
Qed.

Lemma condition_trace (c : Action W bool) (st st1 : St W) (o : outcome bool) :
  silent c ->
  (emit EvCondition ;;; c) st = (o, st1) -> trace st1 = EvCondition :: trace st.
Proof.
  intros Hs E. rewrite bind_emit in E.
  specialize (Hs (mkSt (world st) (EvCondition :: trace st))).
  rewrite E in Hs. exact Hs.
Qed.

Lemma call_hook_comes_back (h : hook_name) (hook : option (Action W unit))
      (st st1 : St W) :
  comes_back (kwargs_get hook (ret tt)) ->
  call_hook h hook st <> (OutOfFuel, st1).
Proof.
  intros Hc E. unfold call_hook in E. rewrite bind_emit in E.
  apply (Hc (mkSt (world st) (EvHook h :: trace st))). rewrite E. reflexivity.
Qed.

Lemma condition_comes_back (c : Action W bool) (st st1 : St W) :
  comes_back c -> (emit EvCondition ;;; c) st <> (OutOfFuel, st1).
Proof.
  intros Hc E. rewrite bind_emit in E.
  apply (Hc (mkSt (world st) (EvCondition :: trace st))). rewrite E. reflexivity.
Qed.

(** With a budget other than -1 the loop comes back whatever the predicate
    and the hooks do, provided each call of them does; it has then made at
    most one evaluation more than the attempts that were left. *)
Lemma wait_loop_bounded_comes_back (c : Action W bool) (kw : wait_kwargs W)
      (max_attempts : Z) :
  silent c -> comes_back c ->
  silent (kwargs_get (in_loop_before kw) (ret tt)) ->
  comes_back (kwargs_get (in_loop_before kw) (ret tt)) ->
  silent (kwargs_get (in_loop_after kw) (ret tt)) ->
  comes_back (kwargs_get (in_loop_after kw) (ret tt)) ->
  max_attempts <> -1 ->
  forall (n fuel dots : nat) (attempt : Z) (st : St W),
    n = Z.to_nat (max_attempts - attempt) -> (n < fuel)%nat ->
    fst (wait_loop fuel c kw max_attempts dots attempt st) <> OutOfFuel /\
    (evaluations (snd (wait_loop fuel c kw max_attempts dots attempt st))
     <= evaluations st + S n)%nat.
Proof.
  intros Hsc Hcc Hsb Hcb Hsa Hca HM.
  induction n as [| n IH]; intros fuel dots attempt st Hn Hfuel;
    (destruct fuel as [| fuel]; [lia |]); cbn [wait_loop];
    (step_bind E1;
     [ | | exfalso; exact (call_hook_comes_back _ _ _ _ Hcb E1)]);
    pose proof (call_hook_trace _ _ _ _ _ Hsb E1) as T1;
    try (split; [discriminate |];
         unfold evaluations, count_ev; simpl; rewrite T1; simpl; lia);
    (step_bind E2;
     [ | | exfalso; exact (condition_comes_back _ _ _ Hcc E2)]);
    pose proof (condition_trace _ _ _ _ Hsc E2) as T2;
    try (split; [discriminate |];
         unfold evaluations, count_ev; simpl; rewrite T2, T1; simpl; lia);
    (match goal with b : bool |- _ => destruct b end;
     [split; [discriminate |];
      unfold evaluations, count_ev; simpl; rewrite T2, T1; simpl; lia |]).
  - assert (negb (max_attempts =? -1) && (attempt >=? max_attempts) = true)
      as ->.
    { apply andb_true_iff.
      split; [apply negb_true_iff, Z.eqb_neq; lia | apply Z.geb_le; lia]. }
    split; [discriminate |].
    unfold evaluations, count_ev; simpl; rewrite T2, T1; simpl; lia.
  - assert (negb (max_attempts =? -1) && (attempt >=? max_attempts) = false)
      as ->.
    { apply andb_false_iff. right. rewrite Z.geb_leb. apply Z.leb_gt. lia. }
    cbv zeta. rewrite bind_print.
    step_bind E3;
      [ | | exfalso; exact (call_hook_comes_back _ _ _ _ Hca E3)];
      pose proof (call_hook_trace _ _ _ _ _ Hsa E3) as T3; simpl in T3;
      try (split; [discriminate |];
           unfold evaluations, count_ev; simpl; rewrite T3, T2, T1; simpl; lia).
    rewrite bind_time_sleep, bind_print.
    match goal with
    | |- fst (wait_loop fuel c kw max_attempts ?d ?a ?s) <> _ /\ _ =>
        destruct (IH fuel d a s) as [Hf Hv]; [lia | lia |];
        split; [exact Hf |];
        assert (evaluations s = S (evaluations st))
          by (unfold evaluations, count_ev; simpl; rewrite T3, T2, T1;
              reflexivity);
        lia
    end.
Qed.

Lemma wait_until_bounded_comes_back (c : Action W bool)
      (kw : wait_kwargs W) (max_attempts : Z) (fuel : nat) (st : St W) :
  max_tries kw = Some max_attempts -> max_attempts <> -1 ->
  silent c -> comes_back c ->
  on_hooks silent kw -> on_hooks comes_back kw ->
  (Z.to_nat max_attempts < fuel)%nat ->
  fst (wait_until fuel c kw st) <> OutOfFuel /\
  (evaluations (snd (wait_until fuel c kw st))
   <= evaluations st + S (Z.to_nat max_attempts))%nat.
Proof.
  intros Hkw HM Hsc Hcc Hs Hc Hfuel.
  destruct (on_hooks_called silent kw (silent_ret tt) Hs)
    as (Hs1 & Hs2 & Hs3 & Hs4).
  destruct (on_hooks_called comes_back kw (comes_back_ret tt) Hc)
    as (Hc1 & Hc2 & Hc3 & Hc4).
  unfold wait_until. cbv zeta. rewrite Hkw. cbn [kwargs_get].
  step_bind E1;
    [ | | exfalso; exact (call_hook_comes_back _ _ _ _ Hc1 E1)];
    pose proof (call_hook_trace _ _ _ _ _ Hs1 E1) as T1;
    try (split; [discriminate |];
         unfold evaluations, count_ev; simpl; rewrite T1; simpl; lia).
  match goal with
  | |- context [bind (wait_loop fuel c kw max_attempts 1%nat 0) _ ?s] =>
      destruct (wait_loop_bounded_comes_back c kw max_attempts
                  Hsc Hcc Hs2 Hc2 Hs3 Hc3 HM (Z.to_nat max_attempts)
                  fuel 1%nat 0 s) as [Hf Hv]; [f_equal; lia | exact Hfuel |];
      assert (V1 : evaluations s = evaluations st)
        by (unfold evaluations, count_ev; rewrite T1; reflexivity)
  end.
  step_bind E2; simpl in Hf, Hv; try (split; [discriminate | simpl; lia]);
    [| exfalso; apply Hf; reflexivity].
  step_bind E3;
    [ | | exfalso; exact (call_hook_comes_back _ _ _ _ Hc4 E3)];
    pose proof (call_hook_trace _ _ _ _ _ Hs4 E3) as T3;
    (split; [discriminate |]);
    assert (evaluations s1 = evaluations s0)
      by (unfold evaluations, count_ev; rewrite T3; reflexivity);
    simpl; lia.
Qed.

(** C10.  With a budget [M >= 0] the poller comes back whatever the
    predicate and the hooks answer, after at most [M + 1] evaluations of
    the predicate.  Hence a run that no amount of fuel completes was given
    no budget or a negative one; and with no budget given, a predicate that
    stays false is polled without end. *)
Theorem wait_until_with_budget_terminates
        (c : Action W bool) (kw : wait_kwargs W) (st : St W) :
  silent c -> comes_back c ->
  on_hooks silent kw -> on_hooks comes_back kw ->
  (forall M, max_tries kw = Some M -> 0 <= M ->
   forall fuel, (Z.to_nat M < fuel)%nat ->
     fst (wait_until fuel c kw st) <> OutOfFuel /\
     Z.of_nat (evaluations (snd (wait_until fuel c kw st)))
     <= Z.of_nat (evaluations st) + M + 1) /\
  ((forall fuel, fst (wait_until fuel c kw st) = OutOfFuel) ->
   max_tries kw = None \/ exists M, max_tries kw = Some M /\ M < 0) /\
  (max_tries kw = None -> never_true c -> on_hooks returns kw ->
   forall fuel, fst (wait_until fuel c kw st) = OutOfFuel).
Proof.
  intros Hsc Hcc Hs Hc.
  assert (Hbounded :
    forall M, max_tries kw = Some M -> 0 <= M ->
    forall fuel, (Z.to_nat M < fuel)%nat ->
      fst (wait_until fuel c kw st) <> OutOfFuel /\
      Z.of_nat (evaluations (snd (wait_until fuel c kw st)))
      <= Z.of_nat (evaluations st) + M + 1).
  { intros M Hkw HM fuel Hfuel.
    destruct (wait_until_bounded_comes_back c kw M fuel st Hkw ltac:(lia)
                Hsc Hcc Hs Hc Hfuel) as [Hf Hv].
    split; [exact Hf | lia]. }
  split; [exact Hbounded |]. split.
  - intro Hdiv. destruct (max_tries kw) as [M |] eqn:Hkw; [| left; reflexivity].
    right. exists M. split; [reflexivity |].
    destruct (Z_lt_ge_dec M 0) as [Hneg | Hpos]; [exact Hneg | exfalso].
    destruct (Hbounded M eq_refl ltac:(lia) (S (Z.to_nat M)) ltac:(lia))
      as [Hf _].
    apply Hf, Hdiv.
  - intros Hkw Hnc Hr fuel.
    destruct (wait_until_unbounded_never_true c kw fuel st
                ltac:(rewrite Hkw; reflexivity) Hsc Hnc Hs Hr) as (st' & E & _).
    rewrite E. reflexivity.
Qed.

(** The loop on a predicate whose [k]-th evaluation is the first true one,
    when the budget allows that evaluation. *)
Lemma wait_loop_first_true_at (c : Action W bool) (kw : wait_kwargs W)
      (max_attempts : Z) :
  silent c ->
  silent (kwargs_get (in_loop_before kw) (ret tt)) ->
  silent (kwargs_get (in_loop_after kw) (ret tt)) ->
  forall (k fuel dots : nat) (attempt : Z) (st : St W),
    first_true_at k c kw dots st -> (k <= fuel)%nat ->
    attempt + Z.of_nat k <= max_attempts + 1 ->
    exists st',
      wait_loop fuel c kw max_attempts dots attempt st = (Ret false, st') /\
      evaluations st' = (evaluations st + k)%nat /\
      after_loops st' = after_loops st.
Proof.
  intros Hsc Hsb Hsa.
  induction k as [| k IH]; intros fuel dots attempt st Hk Hfuel Hbudget;
    [contradiction |].
  destruct fuel as [| fuel]; [lia |].
  cbn [wait_loop]. cbn [first_true_at] in Hk.
  destruct (call_hook in_loop_before_hook (in_loop_before kw) st)
    as [[[] | e |] st1] eqn:E1;
    [ rewrite (bind_Ret _ _ _ _ _ E1) in Hk
    | rewrite (bind_Raise _ _ _ _ _ E1) in Hk; contradiction
    | rewrite (bind_OutOfFuel _ _ _ _ E1) in Hk; contradiction ].
  pose proof (call_hook_trace _ _ _ _ _ Hsb E1) as T1.
  rewrite (bind_Ret _ _ _ _ _ E1).
  destruct ((emit EvCondition ;;; c) st1) as [[b | e |] st2] eqn:E2;
    try contradiction.
  pose proof (condition_trace _ _ _ _ Hsc E2) as T2.
  rewrite (bind_Ret _ _ _ _ _ E2).
  destruct b.
  - subst k. exists st2. split; [reflexivity |].
    unfold evaluations, after_loops, count_ev. rewrite T2, T1. simpl. lia.
  - rewrite bind_print in Hk.
    match type of Hk with
    | context [bind (call_hook in_loop_after_hook (in_loop_after kw)) _ ?s] =>
        destruct (call_hook in_loop_after_hook (in_loop_after kw) s)
          as [[[] | e |] st3] eqn:E3
    end;
      [ rewrite (bind_Ret _ _ _ _ _ E3) in Hk
      | rewrite (bind_Raise _ _ _ _ _ E3) in Hk; contradiction
      | rewrite (bind_OutOfFuel _ _ _ _ E3) in Hk; contradiction ].
    pose proof (call_hook_trace _ _ _ _ _ Hsa E3) as T3. simpl in T3.
    rewrite bind_time_sleep in Hk. unfold print, emit in Hk.
    destruct k as [| k]; [contradiction |].
    assert (negb (max_attempts =? -1) && (attempt >=? max_attempts) = false)
      as ->.
    { apply andb_false_iff. right. rewrite Z.geb_leb. apply Z.leb_gt. lia. }
    cbv zeta. rewrite bind_print, (bind_Ret _ _ _ _ _ E3), bind_time_sleep,
      bind_print.
    destruct (IH fuel _ (attempt + 1) _ Hk ltac:(lia) ltac:(lia))
      as (st' & E & V & A).
    exists st'. split; [exact E |].
    rewrite V, A. unfold evaluations, after_loops, count_ev. simpl.
    rewrite T3, T2, T1. simpl. lia.
Qed.

(** C5.  With a budget [M >= 0] and a predicate whose [k]-th evaluation,
    [k <= M], is the first to be true, the poller returns true having
    evaluated the predicate exactly [k] times. *)
Theorem wait_until_returns_true_at_kth_evaluation
        (c : Action W bool) (kw : wait_kwargs W) (M : Z) (k fuel : nat)
        (st : St W) :
  max_tries kw = Some M -> 0 <= M -> Z.of_nat k <= M ->
  silent c -> on_hooks silent kw -> on_hooks returns kw ->
  first_true_at k c kw 1
    (snd (call_hook before_loop_hook (before_loop kw) st)) ->
  (k <= fuel)%nat ->
  exists st',
    wait_until fuel c kw st = (Ret true, st') /\
    evaluations st' = (evaluations st + k)%nat.
Proof.
  intros Hkw HM HkM Hsc Hs Hr Hk Hfuel.
  destruct (on_hooks_called silent kw (silent_ret tt) Hs)
    as (Hs1 & Hs2 & Hs3 & Hs4).
  destruct (on_hooks_called returns kw (returns_ret tt) Hr)
    as (Hr1 & _ & _ & Hr4).
  unfold wait_until. cbv zeta. rewrite Hkw. cbn [kwargs_get].
  destruct (call_hook_returns before_loop_hook _ st Hs1 Hr1)
    as (st1 & E1 & T1).
  rewrite E1 in Hk. cbn [snd] in Hk.
  rewrite (bind_Ret _ _ _ _ _ E1).
  destruct (wait_loop_first_true_at c kw M Hsc Hs2 Hs3 k fuel 1%nat 0 st1
              Hk Hfuel ltac:(lia)) as (st2 & E2 & V2 & _).
  rewrite (bind_Ret _ _ _ _ _ E2).
  destruct (call_hook_returns after_loop_hook _ st2 Hs4 Hr4)
    as (st3 & E3 & T3).
  rewrite (bind_Ret _ _ _ _ _ E3).
  exists st3. split; [reflexivity |].
  unfold evaluations, count_ev in *. rewrite T3. simpl. rewrite V2, T1.
  reflexivity.
Qed.

End Poller.

(** *** The poller on the stubs *)

(** Budget 3, a predicate that stays false: four evaluations. *)
Lemma wait_until_never_true_makes_one_evaluation_too_many_witness :
  exists st',
    wait_until (H:=empty_page) 10 stub_false (budget 3) st0
    = (Ret false, st') /\
    Z.of_nat (evaluations st') = Z.of_nat (evaluations st0) + 3 + 1 /\
    after_loops st' = S (after_loops st0).
Proof.
  apply (wait_until_never_true_makes_one_evaluation_too_many
           (H:=empty_page) stub_false (budget 3) 3 10 st0).
  - reflexivity.
  - lia.
  - intro st. reflexivity.
  - intro st. reflexivity.
  - unfold on_hooks; simpl; tauto.
  - unfold on_hooks; simpl; tauto.
  - simpl. lia.
Defined.

(** C3 as stated fails at the budget -2: the poller gives up at the first
    evaluation and returns false, where the claim has it poll without end
    and never return false for want of budget. *)
Lemma wait_until_negative_budget_gives_up :
  ~ (forall fuel,
       fst (wait_until (H:=empty_page) fuel stub_false (budget (-2)) st0)
       = OutOfFuel) /\
  wait_until (H:=empty_page) 10 stub_false (budget (-2)) st0
  = (Ret false,
     mkSt 1%nat [EvHook after_loop_hook; EvCondition;
                 EvHook in_loop_before_hook; EvHook before_loop_hook]).
Proof.
  split; [| reflexivity].
  intro Hdiv. specialize (Hdiv 10%nat). discriminate Hdiv.
Qed.

(** Budget -1 on a predicate that stays false: fifty evaluations with fifty
    units of fuel, and no result; budget -7: one evaluation. *)
Lemma wait_until_unbounded_exactly_for_minus_one_witness :
  (fst (wait_until (H:=empty_page) 50 stub_false (budget (-1)) st0)
   = OutOfFuel /\
   evaluations (snd (wait_until (H:=empty_page) 50 stub_false
                                (budget (-1)) st0))
   = (evaluations st0 + 50)%nat) /\
  exists st',
    wait_until (H:=empty_page) 50 stub_false (budget (-7)) st0
    = (Ret false, st') /\
    evaluations st' = S (evaluations st0).
Proof.
  pose proof (wait_until_unbounded_exactly_for_minus_one
                (H:=empty_page) stub_false (budget (-1)) st0) as [Hone _].
  pose proof (wait_until_unbounded_exactly_for_minus_one
                (H:=empty_page) stub_false (budget (-7)) st0) as [_ Hlow].
  split.
  - apply (proj2 (Hone eq_refl)).
    + intro st. reflexivity.
    + intro st. reflexivity.
    + unfold on_hooks; simpl; tauto.
    + unfold on_hooks; simpl; tauto.
  - apply (Hlow (-7)).
    + reflexivity.
    + lia.
    + intro st. reflexivity.
    + intro st. reflexivity.
    + unfold on_hooks; simpl; tauto.
    + unfold on_hooks; simpl; tauto.
    + lia.
Defined.

(** Budget 5, a predicate true from its third call: three evaluations. *)
Lemma wait_until_returns_true_at_kth_evaluation_witness :
  first_true_at (H:=empty_page) 3 (stub_true_from 3) (budget 5) 1
    (snd (call_hook before_loop_hook (before_loop (budget 5)) st0)) /\
  exists st',
    wait_until (H:=empty_page) 10 (stub_true_from 3) (budget 5) st0
    = (Ret true, st') /\
    evaluations st' = (evaluations st0 + 3)%nat.
Proof.
  assert (Hk : first_true_at (H:=empty_page) 3 (stub_true_from 3) (budget 5) 1
                 (snd (call_hook before_loop_hook
                         (before_loop (budget 5)) st0))).
  { simpl. reflexivity. }
  split; [exact Hk |].
  apply (wait_until_returns_true_at_kth_evaluation
           (H:=empty_page) (stub_true_from 3) (budget 5) 5 3 10 st0).
  - reflexivity.
  - lia.
  - simpl. lia.
  - intro st. reflexivity.
  - unfold on_hooks; simpl; tauto.
  - unfold on_hooks; simpl; tauto.
  - exact Hk.
  - lia.
Defined.

(** Budget 2: a predicate that stays false comes back within three
    evaluations. *)
Lemma wait_until_with_budget_terminates_witness :
  fst (wait_until (H:=empty_page) 3 stub_false (budget 2) st0) <> OutOfFuel /\
  Z.of_nat (evaluations (snd (wait_until (H:=empty_page) 3 stub_false
                                         (budget 2) st0)))
  <= Z.of_nat (evaluations st0) + 2 + 1.
Proof.
  apply (proj1 (wait_until_with_budget_terminates
                  (H:=empty_page) stub_false (budget 2) st0
                  ltac:(intro st; reflexivity)
                  ltac:(intro st; discriminate)
                  ltac:(unfold on_hooks; simpl; tauto) ltac:(unfold on_hooks; simpl; tauto))
               2 eq_refl ltac:(lia) 3%nat ltac:(simpl; lia)).
Defined.

(** ** Teardown *)

Section Teardown.
Context {W : Type} `{Env W}.

(** C9, as the code has it.  [kill_browser] does nothing exactly when the
    handler holds no driver, which is its state before [start_chrome].  The
    method clears no field, so a handler that held a driver before a
    teardown holds it after, and every further call quits the driver
    again. *)
Theorem kill_browser_is_a_noop_only_without_driver
        (self : BrowserHandler) (delete_profile : bool) (st : St W) :
  (driver self = None ->
   kill_browser self delete_profile st = (Ret tt, st)) /\
  (driver self <> None ->
   quits (snd (kill_browser self delete_profile st)) = S (quits st)).
Proof.
  split; intro Hd; unfold kill_browser.
  - rewrite Hd. reflexivity.
  - destruct (driver self) as [d |]; [| contradiction].
    unfold quits, count_ev, perform, bind, emit, lift, attribute_of,
      time_sleep, subprocess_Popen, ret, raise. simpl.
    destruct (driver_quit (world st)) as [[[] | e] w]; simpl;
      [| reflexivity].
    destruct (sb_init self); simpl; [| reflexivity].
    destruct (sb_exit w) as [[[] | e] w']; simpl; [| reflexivity].
    destruct delete_profile; simpl; [| reflexivity].
    repeat match goal with
           | |- context [if ?b then _ else _] => destruct b; simpl
           end; reflexivity.
Qed.

End Teardown.

(** C9 as stated fails on a live handler: the second teardown quits the
    driver, leaves the session context, sleeps and deletes the profile a
    second time. *)
Lemma kill_browser_twice_tears_down_twice :
  let st1 := snd (kill_browser (H:=empty_page) live_handler true st0) in
  kill_browser (H:=empty_page) live_handler true st1 <> (Ret tt, st1) /\
  trace (snd (kill_browser (H:=empty_page) live_handler true st1))
  = [EvPopen "rm -r /tmp/ProfileTemp"; EvSleep 5000;
     EvDriver DSbExit; EvDriver DQuit;
     EvPopen "rm -r /tmp/ProfileTemp"; EvSleep 5000;
     EvDriver DSbExit; EvDriver DQuit].
Proof.
  split; [| reflexivity].
  intro Heq. discriminate Heq.
Qed.

(** A handler that was never started, and one with a live driver. *)
Lemma kill_browser_is_a_noop_only_without_driver_witness :
  kill_browser (H:=empty_page) fresh_handler true st0 = (Ret tt, st0) /\
  quits (snd (kill_browser (H:=empty_page) live_handler true st0))
  = S (quits st0).
Proof.
  split.
  - apply (proj1 (kill_browser_is_a_noop_only_without_driver
                    (H:=empty_page) fresh_handler true st0)).
    reflexivity.
  - apply (proj2 (kill_browser_is_a_noop_only_without_driver
                    (H:=empty_page) live_handler true st0)).
    discriminate.
Defined.

(** ** The workflows *)

Section Workflows.
Context {W : Type} `{Env W}.

Lemma extends_by_refl (p : event -> bool) (st : St W) : extends_by p st st.
Proof. exists []. split; reflexivity. Qed.

Lemma extends_by_app (p : event -> bool) (st st1 st2 : St W)
      (new : list event) :
  trace st1 = (new ++ trace st)%list -> forallb p new = true ->
  extends_by p st1 st2 -> extends_by p st st2.
Proof.
  intros T1 P1 (new2 & T2 & P2). exists (new2 ++ new)%list. split.
  - rewrite T2, T1. apply app_assoc.
  - rewrite forallb_app, P1, P2. reflexivity.
Qed.

Lemma call_hook_None {B} (h : hook_name) (k : Action W B) (st : St W) :
  (call_hook h None ;;; k) st = k (mkSt (world st) (EvHook h :: trace st)).
Proof. reflexivity. Qed.

(** One evaluation of a dialog gate when nothing matches. *)
Lemma gate_condition_false (this : BrowserHandler) (css : string)
      (st : St W) (w' : W) :
  driver this <> None ->
  driver_find_elements css (world st) = (Ok [], w') ->
  (emit EvCondition ;;; l <- find_elements this css ;; ret (truthy l)) st
  = (Ret false,
     mkSt w' (EvDriver (DFindElements css) :: EvCondition :: trace st)).
Proof.
  intros Hd Hfind. destruct (driver this) as [d |] eqn:Ed; [| contradiction].
  unfold find_elements, perform, bind, emit, lift, attribute_of, ret.
  rewrite Ed. simpl. rewrite Hfind. reflexivity.
Qed.

(** A dialog gate whose selector never matches: the loop gives up after
    the evaluation made once [attempt] has reached the budget, and nothing
    but polling has happened. *)
Lemma gate_loop_never_found (this : BrowserHandler) (css msg : string)
      (max_attempts : Z) :
  driver this <> None ->
  (forall w, exists w', driver_find_elements css w = (Ok [], w')) ->
  max_attempts <> -1 ->
  forall (n fuel dots : nat) (attempt : Z) (st : St W),
    n = Z.to_nat (max_attempts - attempt) -> (n < fuel)%nat ->
    exists st',
      wait_loop fuel (l <- find_elements this css ;; ret (truthy l))
                (mkWaitKwargs None None None None (Some max_attempts)
                              (Some msg) None)
                max_attempts dots attempt st = (Ret true, st') /\
      extends_by (is_poll_of css) st st' /\
      evaluations st' = (evaluations st + S n)%nat.
Proof.
  intros Hd Hnone HM.
  induction n as [| n IH]; intros fuel dots attempt st Hn Hfuel;
    (destruct fuel as [| fuel]; [lia |]); cbn [wait_loop in_loop_before];
    rewrite call_hook_None;
    match goal with
    | |- context [bind (emit EvCondition ;;; _) _ ?s] =>
        destruct (Hnone (world s)) as [w' Hw'];
        rewrite (bind_Ret _ _ _ _ _ (gate_condition_false this css s w' Hd Hw'))
    end.
  - assert (negb (max_attempts =? -1) && (attempt >=? max_attempts) = true)
      as ->.
    { apply andb_true_iff.
      split; [apply negb_true_iff, Z.eqb_neq; lia | apply Z.geb_le; lia]. }
    eexists. split; [reflexivity |]. split.
    + eexists [_; _; _]. split; [reflexivity |].
      simpl. rewrite String.eqb_refl. reflexivity.
    + unfold evaluations, count_ev. simpl. lia.
  - assert (negb (max_attempts =? -1) && (attempt >=? max_attempts) = false)
      as ->.
    { apply andb_false_iff. right. rewrite Z.geb_leb. apply Z.leb_gt. lia. }
    cbv zeta. cbn [in_loop_after message sleep].
    rewrite bind_print, call_hook_None, bind_time_sleep, bind_print.
    match goal with
    | |- context [wait_loop fuel _ _ max_attempts ?d ?a ?s] =>
        destruct (IH fuel d a s) as (st' & E & X & V); [lia | lia |]
    end.
    exists st'. split; [exact E |]. split.
    + refine (extends_by_app _ _ _ _ [_; _; _; _; _; _; _] _ _ X).
      * reflexivity.
      * simpl. rewrite String.eqb_refl. reflexivity.
    + rewrite V. unfold evaluations, count_ev. simpl. lia.
Qed.

Lemma wait_for_dialog_never_found (fuel : nat) (this : BrowserHandler)
      (css msg : string) (max_attempts : Z) (st : St W) :
  driver this <> None ->
  (forall w, exists w', driver_find_elements css w = (Ok [], w')) ->
  0 <= max_attempts -> (Z.to_nat max_attempts < fuel)%nat ->
  exists st',
    wait_for_dialog fuel this css msg max_attempts st = (Ret false, st') /\
    extends_by (is_poll_of css) st st' /\
    evaluations st' = (evaluations st + S (Z.to_nat max_attempts))%nat.
Proof.
  intros Hd Hnone HM Hfuel. unfold wait_for_dialog, wait_until.
  cbv zeta. cbn [before_loop after_loop max_tries kwargs_get].
  rewrite call_hook_None.
  match goal with
  | |- context [bind (wait_loop fuel ?c ?kw max_attempts 1%nat 0) _ ?s] =>
      destruct (gate_loop_never_found this css msg max_attempts Hd Hnone
                  ltac:(lia) (Z.to_nat max_attempts) fuel 1%nat 0 s)
        as (st1 & E & X & V); [f_equal; lia | exact Hfuel |]
  end.
  rewrite (bind_Ret _ _ _ _ _ E). rewrite call_hook_None.
  eexists. split; [reflexivity |]. split.
  - destruct X as (new & T & P).
    exists (EvHook after_loop_hook :: new ++ [EvHook before_loop_hook])%list.
    split.
    + simpl. rewrite T. simpl. rewrite <- app_assoc. reflexivity.
    + simpl. rewrite forallb_app, P. reflexivity.
  - unfold evaluations, count_ev in *. simpl. rewrite V. reflexivity.
Qed.

(** [login] on a page that shows the landmark once loaded. *)
Lemma login_already_authenticated (fuel : nat) (self : InstagramBot)
      (st : St W) (w1 w2 : W) (l : list element) :
  driver (handler self) <> None ->
  driver_get "https://www.instagram.com/" (world st) = (Ok tt, w1) ->
  driver_find_elements "svg[aria-label=Home]" (elapse 3000 w1) = (Ok l, w2) ->
  l <> [] ->
  login fuel self st
  = (Ret true,
     mkSt w2 (EvDriver (DFindElements "svg[aria-label=Home]")
              :: EvSleep 3000
              :: EvDriver (DGet "https://www.instagram.com/")
              :: trace st)).
Proof.
  intros Hd Hget Hfind Hl.
  destruct (driver (handler self)) as [d |] eqn:Ed; [| contradiction].
  unfold login, try_except, find_elements, home_landmark, perform, bind,
    emit, lift, attribute_of, time_sleep, ret.
  rewrite Ed. simpl. rewrite Hget. simpl. rewrite Hfind.
  destruct l as [| x l]; [contradiction | reflexivity].
Qed.

(** C6.  On a session that is authenticated, that is, one on which the
    application root loads and shows the landmark, now and after any
    navigation, wait or query, [login] returns [True] having only
    navigated, slept and looked for the landmark, and a second [login]
    right after does the same: no field is written and nothing is clicked
    in either call. *)
Theorem login_is_idempotent_when_authenticated
        (authenticated : W -> Prop) (fuel : nat) (self : InstagramBot)
        (st : St W) :
  driver (handler self) <> None ->
  (forall w, authenticated w ->
     exists w', driver_get "https://www.instagram.com/" w = (Ok tt, w') /\
                authenticated w') ->
  (forall ms w, authenticated w -> authenticated (elapse ms w)) ->
  (forall w, authenticated w ->
     exists l w', driver_find_elements "svg[aria-label=Home]" w = (Ok l, w') /\
                  l <> [] /\ authenticated w') ->
  authenticated (world st) ->
  exists st1 st2,
    login fuel self st = (Ret true, st1) /\
    trace st1 = EvDriver (DFindElements "svg[aria-label=Home]")
                :: EvSleep 3000
                :: EvDriver (DGet "https://www.instagram.com/")
                :: trace st /\
    login fuel self st1 = (Ret true, st2) /\
    trace st2 = EvDriver (DFindElements "svg[aria-label=Home]")
                :: EvSleep 3000
                :: EvDriver (DGet "https://www.instagram.com/")
                :: trace st1.
Proof.
  intros Hd Hget Hsleep Hfind Hauth.
  destruct (Hget _ Hauth) as (w1 & G1 & A1).
  destruct (Hfind _ (Hsleep 3000 _ A1)) as (l1 & w2 & F1 & L1 & A2).
  pose proof (login_already_authenticated fuel self st w1 w2 l1 Hd G1 F1 L1)
    as E1.
  destruct (Hget _ A2) as (w3 & G2 & A3).
  destruct (Hfind _ (Hsleep 3000 _ A3)) as (l2 & w4 & F2 & L2 & A4).
  set (st1 := mkSt w2 (EvDriver (DFindElements "svg[aria-label=Home]")
                       :: EvSleep 3000
                       :: EvDriver (DGet "https://www.instagram.com/")
                       :: trace st)) in *.
  pose proof (login_already_authenticated fuel self st1 w3 w4 l2 Hd G2 F2 L2)
    as E2.
  exists st1. eexists.
  split; [exact E1 |]. split; [reflexivity |].
  split; [exact E2 | reflexivity].
Qed.

(** C7.  When the path does not exist, or the lower-cased extension is not
    one of the six allowed, [post_image] raises its failure having asked
    the file system for the path and nothing else: the remote session has
    seen no call. *)
Theorem post_image_validates_before_any_driver_call
        (fuel : nat) (self : InstagramBot) (image_path caption : string)
        (st : St W) :
  path_exists image_path (world st) = false \/
  str_in (str_lower (snd (splitext os_flavour image_path)))
         [".jpg"; ".jpeg"; ".png"; ".gif"; ".mp4"; ".mov"] = false ->
  post_image fuel self image_path caption st
  = (Raise (mkExn Exception
       ("Post failed: " ++
        if path_exists image_path (world st)
        then "Unsupported file type: "
             ++ str_lower (snd (splitext os_flavour image_path))
        else "Image file not found: " ++ image_path)),
     mkSt (world st) (EvPathExists image_path :: trace st)).
Proof.
  intro Hbad.
  unfold post_image, try_except, os_path_exists, reraise_as, raise.
  rewrite (bind_Ret _ _ st (path_exists image_path (world st))
             (mkSt (world st) (EvPathExists image_path :: trace st)))
    by reflexivity.
  cbn [world].
  destruct (path_exists image_path (world st)) eqn:Hexists.
  - destruct Hbad as [Hbad | Hbad]; [discriminate |].
    cbn [negb]. unfold allowed_extensions. rewrite Hbad. reflexivity.
  - reflexivity.
Qed.

(** C8.  The file is valid and the upload steps have returned, but the
    crop dialog never shows.  Then [post_image] raises the failure that
    names the crop dialog; between the upload and the failure the session
    has only been polled for the crop dialog, 21 times for the budget of
    20, so that no button of a later dialog is read or clicked, no caption
    is written and no later wait is started. *)
Theorem post_image_stops_at_the_crop_gate
        (fuel : nat) (self : InstagramBot) (image_path caption : string)
        (st st1 : St W) :
  driver (handler self) <> None ->
  path_exists image_path (world st) = true ->
  str_in (str_lower (snd (splitext os_flavour image_path)))
         allowed_extensions = true ->
  upload_steps (handler self) image_path
    (mkSt (world st) (EvPathExists image_path :: trace st))
  = (Ret tt, st1) ->
  (forall w, exists w',
       driver_find_elements "div[aria-label='Crop']" w = (Ok [], w')) ->
  (20 < fuel)%nat ->
  exists st',
    post_image fuel self image_path caption st
    = (Raise (mkExn Exception
         ("Post failed: Message: Crop dialog not found" ++ newline)), st') /\
    extends_by is_crop_poll st1 st' /\
    evaluations st' = (evaluations st1 + 21)%nat.
Proof.
  intros Hd Hexists Hext Hup Hcrop Hfuel.
  destruct (wait_for_dialog_never_found fuel (handler self)
              "div[aria-label='Crop']" "Waiting for crop dialog" 20 st1
              Hd Hcrop ltac:(lia) ltac:(simpl; lia))
    as (st' & E & X & V).
  exists st'. split; [| split; [exact X | exact V]].
  unfold post_image, try_except, os_path_exists.
  rewrite (bind_Ret _ _ st true
             (mkSt (world st) (EvPathExists image_path :: trace st)))
    by (rewrite Hexists; reflexivity).
  cbn [negb]. cbv zeta. rewrite Hext. cbn [negb].
  unfold post_steps. unfold upload_steps in Hup.
  step_bind E1;
    [ rewrite (bind_Ret _ _ _ _ _ E1) in Hup
    | rewrite (bind_Raise _ _ _ _ _ E1) in Hup; discriminate
    | rewrite (bind_OutOfFuel _ _ _ _ E1) in Hup; discriminate ].
  step_bind E2;
    [ rewrite (bind_Ret _ _ _ _ _ E2) in Hup
    | rewrite (bind_Raise _ _ _ _ _ E2) in Hup; discriminate
    | rewrite (bind_OutOfFuel _ _ _ _ E2) in Hup; discriminate ].
  rewrite (bind_Ret _ _ _ _ _ Hup).
  rewrite (bind_Ret _ _ _ _ _ E).
  reflexivity.
Qed.

End Workflows.

(** *** The workflows on the stubs *)

(** Two logins in a row on the page that shows the landmark. *)
Lemma login_is_idempotent_when_authenticated_witness :
  exists st1 st2,
    login (H:=home_page) 30 live_bot st0 = (Ret true, st1) /\
    trace st1 = EvDriver (DFindElements "svg[aria-label=Home]")
                :: EvSleep 3000
                :: EvDriver (DGet "https://www.instagram.com/")
                :: trace st0 /\
    login (H:=home_page) 30 live_bot st1 = (Ret true, st2) /\
    trace st2 = EvDriver (DFindElements "svg[aria-label=Home]")
                :: EvSleep 3000
                :: EvDriver (DGet "https://www.instagram.com/")
                :: trace st1.
Proof.
  apply (login_is_idempotent_when_authenticated
           (H:=home_page) (fun _ => True) 30 live_bot st0).
  - discriminate.
  - intros w _. exists w. split; [reflexivity | exact I].
  - intros ms w _. exact I.
  - intros w _. exists [7%nat], w.
    split; [reflexivity | split; [discriminate | exact I]].
  - exact I.
Defined.

(** A path that does not exist, and a text file that does. *)
Lemma post_image_validates_before_any_driver_call_witness :
  post_image (H:=empty_page) 30 live_bot "/tmp/missing.png" "caption" st0
  = (Raise (mkExn Exception
              "Post failed: Image file not found: /tmp/missing.png"),
     mkSt 0%nat [EvPathExists "/tmp/missing.png"]) /\
  post_image (H:=stub_env ["/tmp/notes.TXT"] (fun _ => []))
             30 live_bot "/tmp/notes.TXT" "caption" st0
  = (Raise (mkExn Exception "Post failed: Unsupported file type: .txt"),
     mkSt 0%nat [EvPathExists "/tmp/notes.TXT"]).
Proof.
  split.
  - exact (post_image_validates_before_any_driver_call
             (H:=empty_page) 30 live_bot "/tmp/missing.png" "caption" st0
             (or_introl eq_refl)).
  - exact (post_image_validates_before_any_driver_call
             (H:=stub_env ["/tmp/notes.TXT"] (fun _ => []))
             30 live_bot "/tmp/notes.TXT" "caption" st0
             (or_intror eq_refl)).
Defined.

(** A valid picture on the page where nothing is ever found. *)
Lemma post_image_stops_at_the_crop_gate_witness :
  exists st1 st',
    upload_steps (H:=empty_page) live_handler "/tmp/photo.jpg"
                 (mkSt 0%nat [EvPathExists "/tmp/photo.jpg"])
    = (Ret tt, st1) /\
    post_image (H:=empty_page) 30 live_bot "/tmp/photo.jpg" "caption" st0
    = (Raise (mkExn Exception
         ("Post failed: Message: Crop dialog not found" ++ newline)), st') /\
    extends_by is_crop_poll st1 st' /\
    evaluations st' = (evaluations st1 + 21)%nat.
Proof.
  let s := eval vm_compute in
        (snd (upload_steps (H:=empty_page) live_handler "/tmp/photo.jpg"
                (mkSt 0%nat [EvPathExists "/tmp/photo.jpg"]))) in
  pose (st1 := s).
  destruct (post_image_stops_at_the_crop_gate
              (H:=empty_page) 30 live_bot "/tmp/photo.jpg" "caption" st0 st1)
    as (st' & E & X & V).
  - discriminate.
  - reflexivity.
  - reflexivity.
  - vm_compute. reflexivity.
  - intro w. exists w. reflexivity.
  - lia.
  - exists st1, st'. split; [vm_compute; reflexivity |]. split; [exact E |].
    split; [exact X | exact V].
Defined.

(** ** The Google Drive link parser *)

Module DriveFacts.
Import Drive.

Lemma id_run_all (s : string) : all_chars is_id_char s = true -> id_run s = s.
Proof.
  induction s as [| c s IH]; simpl; [reflexivity |].
  intro Hs. apply andb_true_iff in Hs as [Hc Hs]. rewrite Hc, IH; auto.
Qed.

Lemma id_run_app (s rest : string) :
  all_chars is_id_char s = true -> ends_id rest -> id_run (s ++ rest) = s.
Proof.
  induction s as [| c s IH]; simpl; intros Hs Hr.
  - destruct rest as [| r rest]; simpl; [reflexivity |].
    simpl in Hr. rewrite Hr. reflexivity.
  - apply andb_true_iff in Hs as [Hc Hs]. rewrite Hc, IH; auto.
Qed.

(** A literal found at the start of a string is made of characters of
    that string. *)
Lemma after_literal_all (p : ascii -> bool) (lit s t : string) :
  after_literal lit s = Some t -> all_chars p s = true ->
  all_chars p lit = true.
Proof.
  revert s. induction lit as [| a lit IH]; intros s; simpl; [reflexivity |].
  destruct s as [| b s]; [discriminate |].
  destruct (Ascii.eqb_spec a b) as [-> | _]; [| discriminate].
  simpl. intros Ht Hs. apply andb_true_iff in Hs as [Hb Hs].
  rewrite Hb. simpl. eapply IH; eassumption.
Qed.

Lemma match_here_none (p : ascii -> bool) (lits : list string) (s : string) :
  all_chars p s = true ->
  (forall lit, In lit lits -> all_chars p lit = false) ->
  match_here lits s = None.
Proof.
  intros Hs. induction lits as [| lit lits IH]; intros Hl; simpl;
    [reflexivity |].
  destruct (after_literal lit s) as [t |] eqn:Ht.
  - pose proof (after_literal_all p lit s t Ht Hs) as Hlit.
    rewrite (Hl lit (or_introl eq_refl)) in Hlit. discriminate.
  - apply IH. intros l Hin. apply Hl. right. exact Hin.
Qed.

(** No pattern is found in a string all of whose characters are of a kind
    that each literal of the pattern lacks somewhere. *)
Lemma re_search_none (p : ascii -> bool) (lits : list string) (s : string) :
  all_chars p s = true ->
  (forall lit, In lit lits -> all_chars p lit = false) ->
  re_search lits s = None.
Proof.
  intros Hs Hl. induction s as [| c s IH]; simpl.
  - rewrite (match_here_none p lits "" Hs Hl). reflexivity.
  - rewrite (match_here_none p lits (String c s) Hs Hl).
    apply IH. simpl in Hs. apply andb_true_iff in Hs as [_ Hs]. exact Hs.
Qed.

(** X1.  Round trip: the identifier extracted from the direct download URL
    built for a file identifier is that identifier. *)
Theorem extract_file_id_of_direct_download_url (file_id : string) :
  is_file_id file_id ->
  extract_file_id (get_direct_download_url file_id) = Ok file_id.
Proof.
  intros [Hne Hid].
  assert (H1 : re_search ["drive.google.com/file/d/";
                          "drive.google.com/open?id="] file_id = None).
  { apply (re_search_none is_id_char); [exact Hid |].
    intros lit [<- | [<- | []]]; reflexivity. }
  unfold extract_file_id, get_direct_download_url, patterns.
  cbn -[id_run]. rewrite H1, (id_run_all file_id Hid).
  destruct file_id; [contradiction | reflexivity].
Qed.

(** X2.  From a sharing link of either form, [.../file/d/<id>] or
    [.../open?id=<id>], the identifier is extracted whole and nothing of
    what follows it. *)
Theorem extract_file_id_of_sharing_links (file_id rest : string) :
  is_file_id file_id -> ends_id rest ->
  extract_file_id ("https://drive.google.com/file/d/" ++ file_id ++ rest)
  = Ok file_id /\
  extract_file_id ("https://drive.google.com/open?id=" ++ file_id ++ rest)
  = Ok file_id.
Proof.
  intros [Hne Hid] Hrest.
  unfold extract_file_id, patterns.
  split; cbn -[id_run]; rewrite (id_run_app file_id rest Hid Hrest);
    (destruct file_id; [contradiction | reflexivity]).
Qed.

(** X3.  A string without slash and without equals sign holds no
    identifier: [extract_file_id] raises [ValueError], quoting the
    string. *)
Theorem extract_file_id_rejects_plain_strings (drive_url : string) :
  all_chars is_plain_char drive_url = true ->
  extract_file_id drive_url
  = Fault (mkExn ValueError
             ("Could not extract file ID from Google Drive URL: "
              ++ drive_url)).
Proof.
  intro Hplain. unfold extract_file_id, patterns. cbn [first_match].
  rewrite !(re_search_none is_plain_char _ drive_url Hplain);
    [reflexivity | | |];
    intros lit Hin; simpl in Hin;
    repeat (destruct Hin as [<- | Hin]; [reflexivity |]); contradiction.
Qed.

End DriveFacts.

Lemma extract_file_id_of_direct_download_url_witness :
  Drive.extract_file_id (Drive.get_direct_download_url "1AbC_d-9")
  = Ok "1AbC_d-9".
Proof.
  apply DriveFacts.extract_file_id_of_direct_download_url.
  split; [discriminate | reflexivity].
Defined.

Lemma extract_file_id_of_sharing_links_witness :
  Drive.extract_file_id
    "https://drive.google.com/file/d/1AbC_d-9/view?usp=sharing"
  = Ok "1AbC_d-9" /\
  Drive.extract_file_id "https://drive.google.com/open?id=1AbC_d-9/view?usp=sharing"
  = Ok "1AbC_d-9".
Proof.
  apply (DriveFacts.extract_file_id_of_sharing_links
           "1AbC_d-9" "/view?usp=sharing").
  - split; [discriminate | reflexivity].
  - reflexivity.
Defined.

Lemma extract_file_id_rejects_plain_strings_witness :
  Drive.extract_file_id "not a link"
  = Fault (mkExn ValueError
             "Could not extract file ID from Google Drive URL: not a link").
Proof.
  apply (DriveFacts.extract_file_id_rejects_plain_strings "not a link").
  reflexivity.
Defined.

(** ** More on the retry decorator *)

Section RetryMore.
Context {W : Type} `{Env W}.

(** One attempt that returns. *)
Lemma wrapper_attempt_returns {A : Type} (func : Action W A)
      (retry max_retries : Z) (st st1 : St W) (a : A) :
  retry < max_retries ->
  func (snd (emit EvInvoke st)) = (Ret a, st1) ->
  wrapper func retry max_retries st = (Ret a, st1).
Proof.
  intros Hlt Hf. rewrite wrapper_eq.
  destruct (Z.geb_spec retry max_retries); [lia |].
  unfold bind. simpl in *. rewrite Hf. reflexivity.
Qed.

(** X4.  An operation that raises a transient fault at its first run and
    returns at its second is run twice, five seconds apart, and the
    decorated call returns what the second run returned, provided the
    ceiling leaves room for two attempts (the default 2 does). *)
Theorem exceptional_handler_recovers_from_one_transient_fault
        {A : Type} (func : Action W A) (retry max_retries : option Z)
        (st st1 st2 : St W) (e : exn) (a : A) :
  kwargs_get retry 0 + 1 < kwargs_get max_retries 2 ->
  func (snd (emit EvInvoke st)) = (Raise e, st1) ->
  isinstance e COMMON_EXCEPTIONS = true ->
  func (snd (emit EvInvoke (snd (time_sleep 5000 st1)))) = (Ret a, st2) ->
  exceptional_handler func retry max_retries st = (Ret a, st2).
Proof.
  intros Hlt H1 He H2. unfold exceptional_handler.
  rewrite (wrapper_attempt_raises func (kwargs_get retry 0)
             (kwargs_get max_retries 2) st st1 e ltac:(lia) H1), He.
  apply wrapper_attempt_returns; [lia | exact H2].
Qed.

(** The attempts and sleeps of the wrapper, whatever the operation does. *)
Lemma wrapper_bounds {A : Type} (func : Action W A) (max_retries : Z) :
  silent func ->
  forall (n : nat) (retry : Z) (st : St W),
    n = Z.to_nat (max_retries - retry) ->
    (invocations (snd (wrapper func retry max_retries st))
     <= invocations st + n)%nat /\
    (sleeps (snd (wrapper func retry max_retries st)) + invocations st
     <= invocations (snd (wrapper func retry max_retries st)) + sleeps st)%nat /\
    (invocations st <= invocations (snd (wrapper func retry max_retries st)))%nat.
Proof.
  intros Hsil. induction n as [| n IH]; intros retry st Hn.
  - rewrite wrapper_refuses by lia. simpl. lia.
  - rewrite wrapper_eq. destruct (Z.geb_spec retry max_retries); [lia |].
    rewrite bind_emit.
    pose proof (Hsil (mkSt (world st) (EvInvoke :: trace st))) as T.
    destruct (func (mkSt (world st) (EvInvoke :: trace st)))
      as [[a | e |] st1]; simpl in T;
      assert (I1 : invocations st1 = S (invocations st))
        by (unfold invocations, count_ev; rewrite T; reflexivity);
      assert (S1 : sleeps st1 = sleeps st)
        by (unfold sleeps, count_ev; rewrite T; reflexivity);
      try (simpl; lia).
    destruct (isinstance e COMMON_EXCEPTIONS); [| simpl; lia].
    destruct (IH (retry + 1) (snd (time_sleep 5000 st1)) ltac:(lia))
      as (B1 & B2 & B3).
    assert (I2 : invocations (snd (time_sleep 5000 st1)) = invocations st1)
      by reflexivity.
    assert (S2 : sleeps (snd (time_sleep 5000 st1)) = S (sleeps st1))
      by reflexivity.
    lia.
Qed.

(** X5.  Whatever the operation does, a decorated call runs it at most
    [max_retries - retry] times, not at all when that is not positive, and
    sleeps at most once per run. *)
Theorem exceptional_handler_never_exceeds_its_ceiling
        {A : Type} (func : Action W A) (retry max_retries : option Z)
        (st : St W) :
  silent func ->
  let st' := snd (exceptional_handler func retry max_retries st) in
  Z.of_nat (invocations st') - Z.of_nat (invocations st)
  <= Z.max 0 (kwargs_get max_retries 2 - kwargs_get retry 0) /\
  Z.of_nat (sleeps st') - Z.of_nat (sleeps st)
  <= Z.of_nat (invocations st') - Z.of_nat (invocations st).
Proof.
  intros Hsil st'. subst st'. unfold exceptional_handler.
  destruct (wrapper_bounds func (kwargs_get max_retries 2) Hsil
              (Z.to_nat (kwargs_get max_retries 2 - kwargs_get retry 0))
              (kwargs_get retry 0) st eq_refl) as (B1 & B2 & B3).
  lia.
Qed.

End RetryMore.

Lemma exceptional_handler_recovers_from_one_transient_fault_witness :
  exceptional_handler (H:=empty_page) stub_flaky None None st0
  = (Ret 42%nat, mkSt 2%nat [EvInvoke; EvSleep 5000; EvInvoke]).
Proof.
  apply (exceptional_handler_recovers_from_one_transient_fault
           (H:=empty_page) stub_flaky None None st0
           (mkSt 1%nat [EvInvoke])
           (mkSt 2%nat [EvInvoke; EvSleep 5000; EvInvoke])
           (mkExn StaleElementReferenceException "stale") 42%nat).
  - simpl. lia.
  - reflexivity.
  - reflexivity.
  - reflexivity.
Defined.

Lemma exceptional_handler_never_exceeds_its_ceiling_witness :
  Z.of_nat (invocations
              (snd (exceptional_handler (H:=empty_page) stub_flaky
                                        None (Some 5) st0)))
  - Z.of_nat (invocations st0) <= Z.max 0 (5 - 0).
Proof.
  apply (exceptional_handler_never_exceeds_its_ceiling
           (H:=empty_page) stub_flaky None (Some 5) st0).
  intro st. unfold stub_flaky, lift.
  destruct (Nat.eqb (world st) 0); reflexivity.
Defined.

(** ** More on the condition poller *)

Section PollerMore.
Context {W : Type} `{Env W}.

Lemma progress_line_is_poller_event (kw : wait_kwargs W) (dots : nat) :
  (1 <= dots <= 3)%nat ->
  is_poller_event kw
    (EvPrint (kwargs_get (message kw) "Waiting" ++ str_repeat "." dots))
  = true.
Proof.
  intros Hd. unfold is_poller_event.
  destruct dots as [| [| [| [| dots]]]]; try lia; simpl;
    rewrite String.eqb_refl, ?orb_true_r; reflexivity.
Qed.

Lemma sleep_is_poller_event (kw : wait_kwargs W) :
  is_poller_event kw (EvSleep (kwargs_get (sleep kw) 500)) = true.
Proof. simpl. apply Z.eqb_refl. Qed.

Lemma next_dots_in_range (dots : nat) :
  (1 <= dots <= 3)%nat ->
  (1 <= (if (2 <? dots)%nat then 1 else dots + 1) <= 3)%nat.
Proof.
  intro Hd. destruct (Nat.ltb_spec 2 dots); lia.
Qed.

(** The events of the loop, the count of after-loop calls it leaves alone,
    and the sleep it takes between two evaluations, for any budget and
    however the loop ends. *)
Lemma wait_loop_invariants (c : Action W bool) (kw : wait_kwargs W)
      (max_attempts : Z) :
  silent c ->
  silent (kwargs_get (in_loop_before kw) (ret tt)) ->
  silent (kwargs_get (in_loop_after kw) (ret tt)) ->
  forall (fuel dots : nat) (attempt : Z) (st : St W),
    (1 <= dots <= 3)%nat ->
    extends_by (is_poller_event kw) st
      (snd (wait_loop fuel c kw max_attempts dots attempt st)) /\
    after_loops (snd (wait_loop fuel c kw max_attempts dots attempt st))
    = after_loops st /\
    (forall b,
        fst (wait_loop fuel c kw max_attempts dots attempt st) = Ret b ->
        (evaluations (snd (wait_loop fuel c kw max_attempts dots attempt st))
         + sleeps st
         = S (evaluations st
              + sleeps (snd (wait_loop fuel c kw max_attempts dots
                                       attempt st))))%nat).
Proof.
  intros Hsc Hsb Hsa.
  induction fuel as [| fuel IH]; intros dots attempt st Hd.
  { simpl. split; [apply extends_by_refl |]. split; [reflexivity |].
    intros b Hb. discriminate Hb. }
  pose proof (progress_line_is_poller_event kw dots Hd) as Pp.
  pose proof (sleep_is_poller_event kw) as Ps.
  cbn [wait_loop].
  step_bind E1; pose proof (call_hook_trace _ _ _ _ _ Hsb E1) as T1;
    try (cbn [fst snd]; split;
         [exists [EvHook in_loop_before_hook]; split;
          [rewrite T1; reflexivity | reflexivity] |];
         split; [unfold after_loops, count_ev; rewrite T1; reflexivity |];
         intros b Hb; discriminate Hb).
  step_bind E2; pose proof (condition_trace _ _ _ _ Hsc E2) as T2;
    try (cbn [fst snd]; split;
         [exists [EvCondition; EvHook in_loop_before_hook]; split;
          [rewrite T2, T1; reflexivity | reflexivity] |];
         split; [unfold after_loops, count_ev; rewrite T2, T1; reflexivity |];
         intros b Hb; discriminate Hb).
  assert (Hexit :
    forall b : bool,
      extends_by (is_poller_event kw) st (snd (ret (W:=W) b s0)) /\
      after_loops (snd (ret (W:=W) b s0)) = after_loops st /\
      (forall b', fst (ret (W:=W) b s0) = Ret b' ->
         (evaluations (snd (ret (W:=W) b s0)) + sleeps st
          = S (evaluations st + sleeps (snd (ret (W:=W) b s0))))%nat)).
  { intro b. cbn [ret fst snd]. split;
      [exists [EvCondition; EvHook in_loop_before_hook]; split;
       [rewrite T2, T1; reflexivity | reflexivity] |].
    split; [unfold after_loops, count_ev; rewrite T2, T1; reflexivity |].
    intros _ _. unfold evaluations, sleeps, count_ev. rewrite T2, T1.
    simpl. lia. }
  match goal with b : bool |- _ => destruct b end; [apply Hexit |].
  destruct (negb (max_attempts =? -1) && (attempt >=? max_attempts));
    [apply Hexit |].
  cbv zeta. rewrite bind_print.
  step_bind E3; pose proof (call_hook_trace _ _ _ _ _ Hsa E3) as T3;
    simpl in T3;
    try (cbn [fst snd]; split;
         [exists [EvHook in_loop_after_hook;
                  EvPrint (kwargs_get (message kw) "Waiting"
                           ++ str_repeat "." dots);
                  EvCondition; EvHook in_loop_before_hook]; split;
          [rewrite T3, T2, T1; reflexivity
          | cbn [forallb]; rewrite Pp; reflexivity] |];
         split;
         [unfold after_loops, count_ev; rewrite T3, T2, T1; reflexivity |];
         intros b Hb; discriminate Hb).
  rewrite bind_time_sleep, bind_print.
  match goal with
  | |- context [wait_loop fuel c kw max_attempts ?d ?a ?s] =>
      set (sn := s); set (dn := d); set (an := a)
  end.
  assert (Ts : trace sn
               = ([EvPrint (str_repeat " " 100);
                   EvSleep (kwargs_get (sleep kw) 500);
                   EvHook in_loop_after_hook;
                   EvPrint (kwargs_get (message kw) "Waiting"
                            ++ str_repeat "." dots);
                   EvCondition; EvHook in_loop_before_hook]
                  ++ trace st)%list)
    by (subst sn; cbn [trace]; rewrite T3, T2, T1; reflexivity).
  destruct (IH dn an sn (next_dots_in_range dots Hd)) as (X & A & V).
  clearbody sn.
  split; [| split].
  - refine (extends_by_app _ _ _ _ _ Ts _ X).
    cbn [forallb]. rewrite Pp, Ps. reflexivity.
  - rewrite A. unfold after_loops, count_ev. rewrite Ts. reflexivity.
  - intros b Hb. specialize (V b Hb).
    assert (Vs : evaluations sn = S (evaluations st))
      by (unfold evaluations, count_ev; rewrite Ts; reflexivity).
    assert (Ss : sleeps sn = S (sleeps st))
      by (unfold sleeps, count_ev; rewrite Ts; reflexivity).
    lia.
Qed.

(** The same for the whole poller, with the after-loop hook accounted
    for. *)
Lemma wait_until_invariants (c : Action W bool) (kw : wait_kwargs W)
      (fuel : nat) (st : St W) :
  silent c -> on_hooks silent kw ->
  extends_by (is_poller_event kw) st (snd (wait_until fuel c kw st)) /\
  (forall b, fst (wait_until fuel c kw st) = Ret b ->
     after_loops (snd (wait_until fuel c kw st)) = S (after_loops st) /\
     (evaluations (snd (wait_until fuel c kw st)) + sleeps st
      = S (evaluations st + sleeps (snd (wait_until fuel c kw st))))%nat) /\
  (returns (kwargs_get (after_loop kw) (ret tt)) ->
   forall e, fst (wait_until fuel c kw st) = Raise e ->
     after_loops (snd (wait_until fuel c kw st)) = after_loops st).
Proof.
  intros Hsc Hs.
  destruct (on_hooks_called silent kw (silent_ret tt) Hs)
    as (Hs1 & Hs2 & Hs3 & Hs4).
  unfold wait_until. cbv zeta.
  step_bind E1; pose proof (call_hook_trace _ _ _ _ _ Hs1 E1) as T1;
    try (cbn [fst snd]; split;
         [exists [EvHook before_loop_hook]; split;
          [rewrite T1; reflexivity | reflexivity] |];
         split; [intros b Hb; discriminate Hb |];
         intros _ e' _; unfold after_loops, count_ev; rewrite T1;
         reflexivity).
  match goal with
  | |- context [bind (wait_loop fuel c kw ?m 1%nat 0) _ ?s] =>
      destruct (wait_loop_invariants c kw m Hsc Hs2 Hs3 fuel 1%nat 0 s
                  ltac:(lia)) as (X & A & V)
  end.
  assert (X0 : extends_by (is_poller_event kw) st
                 (snd (wait_loop fuel c kw (kwargs_get (max_tries kw) (-1))
                                 1 0 s))).
  { refine (extends_by_app _ _ _ _ [EvHook before_loop_hook] T1 _ X).
    reflexivity. }
  assert (A0 : after_loops s = after_loops st)
    by (unfold after_loops, count_ev; rewrite T1; reflexivity).
  assert (V0 : evaluations s = evaluations st /\ sleeps s = sleeps st)
    by (unfold evaluations, sleeps, count_ev; rewrite T1; split; reflexivity).
  step_bind E2; cbn [fst snd] in X0, A, V;
    try (cbn [fst snd]; split; [exact X0 |];
         split; [intros b Hb; discriminate Hb |];
         intros _ e' _; rewrite A; exact A0).
  step_bind E3; pose proof (call_hook_trace _ _ _ _ _ Hs4 E3) as T3;
    cbn [fst snd ret];
    (split;
     [destruct X0 as (new & Tn & Pn);
      exists (EvHook after_loop_hook :: new); split;
      [rewrite T3, Tn; reflexivity | cbn [forallb]; rewrite Pn; reflexivity]
     |]);
    (split;
     [intros b Hb; try discriminate Hb;
      specialize (V _ eq_refl);
      unfold after_loops, evaluations, sleeps, count_ev in *;
      rewrite T3; simpl; split; lia
     |]).
  - intros _ e' He'. discriminate He'.
  - intros Hret e' _. exfalso.
    unfold call_hook in E3. rewrite bind_emit in E3.
    destruct (Hret (mkSt (world s0) (EvHook after_loop_hook :: trace s0)))
      as [u Hu].
    rewrite E3 in Hu. discriminate Hu.
  - intros _ e' He'. discriminate He'.
Qed.

End PollerMore.

Section PollerProperties.
Context {W : Type} `{Env W}.

Lemma count_ev_extends (p q : event -> bool) (st st' : St W) :
  extends_by p st st' ->
  (count_ev q (trace st) <= count_ev q (trace st'))%nat.
Proof.
  intros (new & T & _). unfold count_ev. rewrite T, filter_app, length_app.
  lia.
Qed.

(** X6.  Besides what its callables record, a run of the poller leaves in
    the trace only hook calls, predicate calls, sleeps of the configured
    interval (half a second by default), the blank line, and the message
    followed by one, two or three dots. *)
Theorem wait_until_leaves_only_poller_events
        (c : Action W bool) (kw : wait_kwargs W) (fuel : nat) (st : St W) :
  silent c -> on_hooks silent kw ->
  extends_by (is_poller_event kw) st (snd (wait_until fuel c kw st)).
Proof.
  intros Hsc Hs. apply (wait_until_invariants c kw fuel st Hsc Hs).
Qed.

(** X7.  When the poller returns, it has slept exactly once between two
    consecutive evaluations of the predicate: one sleep less than
    evaluations, whatever the budget and the result. *)
Theorem wait_until_sleeps_once_between_evaluations
        (c : Action W bool) (kw : wait_kwargs W) (fuel : nat) (st st' : St W)
        (b : bool) :
  silent c -> on_hooks silent kw ->
  wait_until fuel c kw st = (Ret b, st') ->
  (evaluations st' - evaluations st = S (sleeps st' - sleeps st))%nat /\
  (sleeps st <= sleeps st')%nat.
Proof.
  intros Hsc Hs E.
  destruct (wait_until_invariants c kw fuel st Hsc Hs) as (X & V & _).
  rewrite E in V, X. destruct (V b eq_refl) as [_ V']. cbn [snd] in V', X.
  pose proof (count_ev_extends _ is_sleep _ _ X) as Hmono.
  unfold sleeps in *. lia.
Qed.


(** A predicate true at its first evaluation ends the loop before the
    budget is looked at. *)
Lemma wait_loop_true_at_once (c : Action W bool) (kw : wait_kwargs W)
      (max_attempts : Z) (fuel dots : nat) (attempt : Z) (st : St W) :
  silent c ->
  silent (kwargs_get (in_loop_before kw) (ret tt)) ->
  first_true_at 1 c kw dots st ->
  exists st',
    wait_loop (S fuel) c kw max_attempts dots attempt st = (Ret false, st') /\
    evaluations st' = S (evaluations st).
Proof.
  intros Hsc Hsb Hk. cbn [wait_loop]. cbn [first_true_at] in Hk.
  destruct (call_hook in_loop_before_hook (in_loop_before kw) st)
    as [[[] | e |] st1] eqn:E1;
    [ rewrite (bind_Ret _ _ _ _ _ E1) in Hk
    | rewrite (bind_Raise _ _ _ _ _ E1) in Hk; contradiction
    | rewrite (bind_OutOfFuel _ _ _ _ E1) in Hk; contradiction ].
  pose proof (call_hook_trace _ _ _ _ _ Hsb E1) as T1.
  rewrite (bind_Ret _ _ _ _ _ E1).
  destruct ((emit EvCondition ;;; c) st1) as [[b | e |] st2] eqn:E2;
    try contradiction.
  pose proof (condition_trace _ _ _ _ Hsc E2) as T2.
  rewrite (bind_Ret _ _ _ _ _ E2).
  destruct b.
  - exists st2. split; [reflexivity |].
    unfold evaluations, count_ev. rewrite T2, T1. reflexivity.
  - exfalso. rewrite bind_print in Hk.
    match type of Hk with
    | context [bind (call_hook in_loop_after_hook (in_loop_after kw)) _ ?s] =>
        destruct (call_hook in_loop_after_hook (in_loop_after kw) s)
          as [[[] | e |] st3] eqn:E3
    end;
      [ rewrite (bind_Ret _ _ _ _ _ E3) in Hk
      | rewrite (bind_Raise _ _ _ _ _ E3) in Hk; contradiction
      | rewrite (bind_OutOfFuel _ _ _ _ E3) in Hk; contradiction ].
    rewrite bind_time_sleep in Hk. exact Hk.
Qed.

(** X9.  A predicate that is true at its first evaluation makes the
    poller return true after that one evaluation and without any sleep,
    whatever the budget: zero, negative, or none. *)
Theorem wait_until_true_at_once_for_any_budget
        (c : Action W bool) (kw : wait_kwargs W) (fuel : nat) (st : St W) :
  silent c -> on_hooks silent kw -> on_hooks returns kw ->
  first_true_at 1 c kw 1
    (snd (call_hook before_loop_hook (before_loop kw) st)) ->
  (0 < fuel)%nat ->
  exists st',
    wait_until fuel c kw st = (Ret true, st') /\
    evaluations st' = S (evaluations st) /\
    sleeps st' = sleeps st.
Proof.
  intros Hsc Hs Hr Hk Hfuel.
  destruct (on_hooks_called silent kw (silent_ret tt) Hs)
    as (Hs1 & Hs2 & Hs3 & Hs4).
  destruct (on_hooks_called returns kw (returns_ret tt) Hr)
    as (Hr1 & _ & _ & Hr4).
  destruct fuel as [| fuel]; [lia |].
  assert (Hrun : exists st',
             wait_until (S fuel) c kw st = (Ret true, st') /\
             evaluations st' = S (evaluations st)).
  { unfold wait_until. cbv zeta.
    destruct (call_hook_returns before_loop_hook _ st Hs1 Hr1)
      as (st1 & E1 & T1).
    rewrite E1 in Hk. cbn [snd] in Hk.
    rewrite (bind_Ret _ _ _ _ _ E1).
    destruct (wait_loop_true_at_once c kw (kwargs_get (max_tries kw) (-1))
                fuel 1%nat 0 st1 Hsc Hs2 Hk) as (st2 & E2 & V2).
    rewrite (bind_Ret _ _ _ _ _ E2).
    destruct (call_hook_returns after_loop_hook _ st2 Hs4 Hr4)
      as (st3 & E3 & T3).
    rewrite (bind_Ret _ _ _ _ _ E3).
    exists st3. split; [reflexivity |].
    unfold evaluations, count_ev in *. rewrite T3. simpl. rewrite V2, T1.
    reflexivity. }
  destruct Hrun as (st' & E & V).
  exists st'. split; [exact E |]. split; [exact V |].
  destruct (wait_until_invariants c kw (S fuel) st Hsc Hs) as (X & I & _).
  rewrite E in I, X. destruct (I true eq_refl) as [_ I']. cbn [snd] in I', X.
  pose proof (count_ev_extends _ is_sleep _ _ X) as Hmono.
  unfold sleeps in *. lia.
Qed.

(** X10.  The evaluation made when the budget is already used up still
    counts: with a budget [M >= 0] and a predicate that is first true at
    its evaluation [M + 1], the poller returns true. *)
Theorem wait_until_succeeds_at_the_evaluation_past_the_budget
        (c : Action W bool) (kw : wait_kwargs W) (M : Z) (k fuel : nat)
        (st : St W) :
  max_tries kw = Some M -> 0 <= M -> Z.of_nat k = M + 1 ->
  silent c -> on_hooks silent kw -> on_hooks returns kw ->
  first_true_at k c kw 1
    (snd (call_hook before_loop_hook (before_loop kw) st)) ->
  (k <= fuel)%nat ->
  exists st',
    wait_until fuel c kw st = (Ret true, st') /\
    evaluations st' = (evaluations st + k)%nat.
Proof.
  intros Hkw HM HkM Hsc Hs Hr Hk Hfuel.
  destruct (on_hooks_called silent kw (silent_ret tt) Hs)
    as (Hs1 & Hs2 & Hs3 & Hs4).
  destruct (on_hooks_called returns kw (returns_ret tt) Hr)
    as (Hr1 & _ & _ & Hr4).
  unfold wait_until. cbv zeta. rewrite Hkw. cbn [kwargs_get].
  destruct (call_hook_returns before_loop_hook _ st Hs1 Hr1)
    as (st1 & E1 & T1).
  rewrite E1 in Hk. cbn [snd] in Hk.
  rewrite (bind_Ret _ _ _ _ _ E1).
  destruct (wait_loop_first_true_at c kw M Hsc Hs2 Hs3 k fuel 1%nat 0 st1
              Hk Hfuel ltac:(lia)) as (st2 & E2 & V2 & _).
  rewrite (bind_Ret _ _ _ _ _ E2).
  destruct (call_hook_returns after_loop_hook _ st2 Hs4 Hr4)
    as (st3 & E3 & T3).
  rewrite (bind_Ret _ _ _ _ _ E3).
  exists st3. split; [reflexivity |].
  unfold evaluations, count_ev in *. rewrite T3. simpl. rewrite V2, T1.
  reflexivity.
Qed.

End PollerProperties.

Lemma wait_until_leaves_only_poller_events_witness :
  extends_by (is_poller_event (W:=nat) (budget 2)) st0
    (snd (wait_until (H:=empty_page) 5 stub_false (budget 2) st0)).
Proof.
  apply (wait_until_leaves_only_poller_events
           (H:=empty_page) stub_false (budget 2) 5 st0).
  - intro st. reflexivity.
  - unfold on_hooks; simpl; tauto.
Defined.

Lemma wait_until_sleeps_once_between_evaluations_witness :
  (evaluations (snd (wait_until (H:=empty_page) 5 stub_false (budget 2) st0))
   - evaluations st0
   = S (sleeps (snd (wait_until (H:=empty_page) 5 stub_false (budget 2) st0))
        - sleeps st0))%nat.
Proof.
  apply (wait_until_sleeps_once_between_evaluations
           (H:=empty_page) stub_false (budget 2) 5 st0 _ false).
  - intro st. reflexivity.
  - unfold on_hooks; simpl; tauto.
  - reflexivity.
Defined.


Lemma wait_until_true_at_once_for_any_budget_witness :
  exists st',
    wait_until (H:=empty_page) 1 (stub_true_from 1) (budget (-5)) st0
    = (Ret true, st') /\
    evaluations st' = S (evaluations st0) /\
    sleeps st' = sleeps st0.
Proof.
  apply (wait_until_true_at_once_for_any_budget
           (H:=empty_page) (stub_true_from 1) (budget (-5)) 1 st0).
  - intro st. reflexivity.
  - unfold on_hooks; simpl; tauto.
  - unfold on_hooks; simpl; tauto.
  - simpl. reflexivity.
  - lia.
Defined.

Lemma wait_until_succeeds_at_the_evaluation_past_the_budget_witness :
  exists st',
    wait_until (H:=empty_page) 3 (stub_true_from 3) (budget 2) st0
    = (Ret true, st') /\
    evaluations st' = (evaluations st0 + 3)%nat.
Proof.
  apply (wait_until_succeeds_at_the_evaluation_past_the_budget
           (H:=empty_page) (stub_true_from 3) (budget 2) 2 3 3 st0).
  - reflexivity.
  - lia.
  - reflexivity.
  - intro st. reflexivity.
  - unfold on_hooks; simpl; tauto.
  - unfold on_hooks; simpl; tauto.
  - simpl. reflexivity.
  - lia.
Defined.

(** ** The element primitives *)

Section Elements.
Context {W : Type} `{Env W}.

(** A wait for an element that ends in an exception. *)
Lemma get_element_fault (self : BrowserHandler) (css : string)
      (by_clickable : bool) (st : St W) (e : exn) (w : W) :
  wait self <> None ->
  wait_until_condition
    (if by_clickable then element_to_be_clickable
     else presence_of_element_located) css (world st) = (Fault e, w) ->
  get_element self css by_clickable false st
  = (Raise e,
     mkSt w (EvDriver (DWaitUntil
                         (if by_clickable then element_to_be_clickable
                          else presence_of_element_located) css)
             :: trace st)).
Proof.
  intros Hw Hc. destruct (wait self) as [h |] eqn:Eh; [| contradiction].
  unfold get_element, attribute_of, perform, bind, emit, lift, ret.
  rewrite Eh. cbn [negb world trace].
  destruct by_clickable; rewrite Hc; reflexivity.
Qed.

(** A decorated call at the default ceiling whose two runs end in
    transient faults: run, sleep, run, sleep, terminal error. *)
Lemma exceptional_handler_two_failed_runs {A : Type} (func : Action W A)
      (st st1 st2 : St W) (e1 e2 : exn) :
  func (snd (emit EvInvoke st)) = (Raise e1, st1) ->
  isinstance e1 COMMON_EXCEPTIONS = true ->
  func (snd (emit EvInvoke (snd (time_sleep 5000 st1)))) = (Raise e2, st2) ->
  isinstance e2 COMMON_EXCEPTIONS = true ->
  exceptional_handler func None None st
  = (Raise max_retries_reached, snd (time_sleep 5000 st2)).
Proof.
  intros E1 He1 E2 He2. unfold exceptional_handler. cbn [kwargs_get].
  rewrite (wrapper_attempt_raises func 0 2 st st1 e1 ltac:(lia) E1), He1.
  rewrite (wrapper_attempt_raises func (0 + 1) 2 _ st2 e2 ltac:(lia) E2), He2.
  apply wrapper_refuses. lia.
Qed.

(** X11.  [write] as the script calls it, without retry keywords: when
    the wait for the element ends in a transient fault and, five seconds
    later, the second wait does too, [write] raises the terminal error
    having made exactly those two attempts, five seconds of sleep after
    each; nothing was cleared and no key was sent. *)
Theorem write_gives_up_without_typing
        (self : BrowserHandler) (css_selector data : string)
        (enter clickable clear : bool) (st : St W) (e1 e2 : exn) (w1 w2 : W) :
  wait self <> None ->
  wait_until_condition
    (if clickable then element_to_be_clickable
     else presence_of_element_located) css_selector (world st)
  = (Fault e1, w1) ->
  isinstance e1 COMMON_EXCEPTIONS = true ->
  wait_until_condition
    (if clickable then element_to_be_clickable
     else presence_of_element_located) css_selector (elapse 5000 w1)
  = (Fault e2, w2) ->
  isinstance e2 COMMON_EXCEPTIONS = true ->
  write self css_selector data enter clickable clear None None st
  = (Raise max_retries_reached,
     mkSt (elapse 5000 w2)
          (EvSleep 5000
           :: EvDriver (DWaitUntil
                          (if clickable then element_to_be_clickable
                           else presence_of_element_located) css_selector)
           :: EvInvoke
           :: EvSleep 5000
           :: EvDriver (DWaitUntil
                          (if clickable then element_to_be_clickable
                           else presence_of_element_located) css_selector)
           :: EvInvoke :: trace st)).
Proof.
  intros Hw E1 He1 E2 He2. unfold write.
  eapply eq_trans;
    [eapply (exceptional_handler_two_failed_runs _ st _ _ e1 e2);
     [ unfold write_body;
       apply bind_Raise, get_element_fault; [exact Hw | exact E1]
     | exact He1
     | unfold write_body;
       apply bind_Raise, get_element_fault; [exact Hw | exact E2]
     | exact He2 ]
    | reflexivity].
Qed.

(** X12.  Likewise [click_element] on a selector, without retry keywords:
    when both waits for the element to become clickable end in transient
    faults, it raises the terminal error after exactly those two attempts,
    with no script run and no click issued. *)
Theorem click_element_gives_up_without_clicking
        (self : BrowserHandler) (css_selector : string)
        (element : option located) (st : St W) (e1 e2 : exn) (w1 w2 : W) :
  wait self <> None ->
  wait_until_condition element_to_be_clickable css_selector (world st)
  = (Fault e1, w1) ->
  isinstance e1 COMMON_EXCEPTIONS = true ->
  wait_until_condition element_to_be_clickable css_selector (elapse 5000 w1)
  = (Fault e2, w2) ->
  isinstance e2 COMMON_EXCEPTIONS = true ->
  click_element self (Some css_selector) element None None st
  = (Raise max_retries_reached,
     mkSt (elapse 5000 w2)
          (EvSleep 5000
           :: EvDriver (DWaitUntil element_to_be_clickable css_selector)
           :: EvInvoke
           :: EvSleep 5000
           :: EvDriver (DWaitUntil element_to_be_clickable css_selector)
           :: EvInvoke :: trace st)).
Proof.
  intros Hw E1 He1 E2 He2. unfold click_element.
  eapply eq_trans;
    [eapply (exceptional_handler_two_failed_runs _ st _ _ e1 e2);
     [ unfold click_element_body;
       apply bind_Raise, bind_Raise;
       apply (get_element_fault self css_selector true); [exact Hw | exact E1]
     | exact He1
     | unfold click_element_body;
       apply bind_Raise, bind_Raise;
       apply (get_element_fault self css_selector true); [exact Hw | exact E2]
     | exact He2 ]
    | reflexivity].
Qed.

(** Reading the label of a button that answers. *)
Lemma get_text_of_button (this : BrowserHandler) (button : element)
      (st : St W) (s : string) (w' : W) :
  element_get_property button "innerText" (world st) = (Ok s, w') ->
  get_text this None (Some (One button)) false None None st
  = (Ret (Text s),
     mkSt w' (EvDriver (DGetProperty button "innerText")
              :: EvInvoke :: trace st)).
Proof.
  intro Hp. unfold get_text, exceptional_handler.
  apply wrapper_attempt_returns; [simpl; lia |].
  unfold get_text_body, get_property, element_of, perform, bind, emit, lift,
    ret. simpl. rewrite Hp. reflexivity.
Qed.

(** X13.  When no button carries the label, the scan reads every label,
    clicks nothing and returns without error: in [post_image] a dialog
    without its Next or Share button does not stop the workflow at that
    step. *)
Theorem click_first_labelled_without_match_clicks_nothing
        (this : BrowserHandler) (label : string) (buttons : list element)
        (st : St W) :
  (forall b w, In b buttons ->
     exists s w', element_get_property b "innerText" w = (Ok s, w') /\
                  s <> label) ->
  exists st',
    click_first_labelled this label buttons st = (Ret tt, st') /\
    extends_by is_label_read st st' /\
    invocations st' = (invocations st + List.length buttons)%nat.
Proof.
  revert st. induction buttons as [| b rest IH]; intros st Hno.
  - exists st. split; [reflexivity |].
    split; [apply extends_by_refl | simpl; lia].
  - destruct (Hno b (world st) (or_introl eq_refl)) as (s & w' & Hp & Hs).
    cbn [click_first_labelled].
    rewrite (bind_Ret _ _ _ _ _ (get_text_of_button this b st s w' Hp)).
    cbn [text_eqb]. apply String.eqb_neq in Hs. rewrite Hs.
    destruct (IH (mkSt w' (EvDriver (DGetProperty b "innerText")
                           :: EvInvoke :: trace st)))
      as (st' & E & X & I).
    { intros b' w Hin. apply Hno. right. exact Hin. }
    exists st'. split; [exact E |]. split.
    + refine (extends_by_app _ _ _ _ [_; _] _ _ X); reflexivity.
    + rewrite I. unfold invocations, count_ev. simpl. lia.
Qed.

(** X14.  The scan stops at the first button that carries the label: the
    buttons before it are read, that button is clicked, and the buttons
    after it are neither read nor clicked. *)
Theorem click_first_labelled_clicks_the_first_match_only
        (this : BrowserHandler) (label : string)
        (before after : list element) (button : element) (st : St W) :
  (forall b w, In b before ->
     exists s w', element_get_property b "innerText" w = (Ok s, w') /\
                  s <> label) ->
  (forall w, exists w',
       element_get_property button "innerText" w = (Ok label, w')) ->
  exists st1,
    extends_by is_label_read st st1 /\
    click_first_labelled this label (before ++ button :: after) st
    = click_element this None (Some (One button)) None None st1.
Proof.
  revert st. induction before as [| b rest IH]; intros st Hno Hyes.
  - destruct (Hyes (world st)) as (w' & Hp).
    eexists. split; [| cbn [app click_first_labelled];
      rewrite (bind_Ret _ _ _ _ _ (get_text_of_button this button st label
                                     w' Hp));
      cbn [text_eqb]; rewrite String.eqb_refl; reflexivity].
    eexists [_; _]. split; reflexivity.
  - destruct (Hno b (world st) (or_introl eq_refl)) as (s & w' & Hp & Hs).
    destruct (IH (mkSt w' (EvDriver (DGetProperty b "innerText")
                           :: EvInvoke :: trace st)))
      as (st1 & X & E); [| exact Hyes |].
    { intros b' w Hin. apply Hno. right. exact Hin. }
    exists st1. split.
    + refine (extends_by_app _ _ _ _ [_; _] _ _ X); reflexivity.
    + cbn [app click_first_labelled].
      rewrite (bind_Ret _ _ _ _ _ (get_text_of_button this b st s w' Hp)).
      cbn [text_eqb]. apply String.eqb_neq in Hs. rewrite Hs. exact E.
Qed.

End Elements.

(** On the page whose elements are never ready the world counts the
    waits: two of them, and no more. *)
Lemma write_gives_up_without_typing_witness :
  write (H:=frozen_page) live_handler "[name='username']" "user"
        false true true None None st0
  = (Raise max_retries_reached,
     mkSt 2%nat
       [EvSleep 5000;
        EvDriver (DWaitUntil element_to_be_clickable "[name='username']");
        EvInvoke;
        EvSleep 5000;
        EvDriver (DWaitUntil element_to_be_clickable "[name='username']");
        EvInvoke]).
Proof.
  apply (write_gives_up_without_typing
           (H:=frozen_page) live_handler "[name='username']" "user"
           false true true st0
           (mkExn TimeoutException "not ready")
           (mkExn TimeoutException "not ready") 1%nat 2%nat).
  - discriminate.
  - reflexivity.
  - reflexivity.
  - reflexivity.
  - reflexivity.
Defined.

Lemma click_element_gives_up_without_clicking_witness :
  click_element (H:=frozen_page) live_handler (Some "button[type=submit]")
                None None None st0
  = (Raise max_retries_reached,
     mkSt 2%nat
       [EvSleep 5000;
        EvDriver (DWaitUntil element_to_be_clickable "button[type=submit]");
        EvInvoke;
        EvSleep 5000;
        EvDriver (DWaitUntil element_to_be_clickable "button[type=submit]");
        EvInvoke]).
Proof.
  apply (click_element_gives_up_without_clicking
           (H:=frozen_page) live_handler "button[type=submit]" None st0
           (mkExn TimeoutException "not ready")
           (mkExn TimeoutException "not ready") 1%nat 2%nat).
  - discriminate.
  - reflexivity.
  - reflexivity.
  - reflexivity.
  - reflexivity.
Defined.

Lemma click_first_labelled_without_match_clicks_nothing_witness :
  exists st',
    click_first_labelled (H:=frozen_page) live_handler "Next"
                         [1%nat; 2%nat; 3%nat] st0
    = (Ret tt, st') /\
    extends_by is_label_read st0 st' /\
    invocations st' = (invocations st0 + 3)%nat.
Proof.
  apply (click_first_labelled_without_match_clicks_nothing
           (H:=frozen_page) live_handler "Next" [1%nat; 2%nat; 3%nat] st0).
  intros b w _. exists "Cancel", w. split; [reflexivity | discriminate].
Defined.

Lemma click_first_labelled_clicks_the_first_match_only_witness :
  exists st1,
    extends_by is_label_read st0 st1 /\
    click_first_labelled (H:=dialog_page) live_handler "Next"
                         ([5%nat; 1%nat] ++ 2%nat :: [3%nat; 2%nat]) st0
    = click_element (H:=dialog_page) live_handler None (Some (One 2%nat))
                    None None st1.
Proof.
  apply (click_first_labelled_clicks_the_first_match_only
           (H:=dialog_page) live_handler "Next" [5%nat; 1%nat]
           [3%nat; 2%nat] 2%nat st0).
  - intros b w [<- | [<- | []]]; exists "Back", (S w);
      (split; [reflexivity | discriminate]).
  - intro w. exists (S w). reflexivity.
Defined.

(** ** More on the workflows *)

Section WorkflowsMore.
Context {W : Type} `{Env W}.

Lemma bind_ret {A B} (a : A) (k : A -> Action W B) (st : St W) :
  (x <- ret a ;; k x) st = k a st.
Proof. reflexivity. Qed.

Lemma perform_Ok {A} (ev : event) (op : W -> reply A * W) (st : St W)
      (a : A) (w : W) :
  op (world st) = (Ok a, w) ->
  perform ev op st = (Ret a, mkSt w (ev :: trace st)).
Proof. intro Hop. unfold perform, bind, emit, lift. simpl. rewrite Hop. reflexivity. Qed.

Lemma find_elements_Ok (this : BrowserHandler) (css : string) (st : St W)
      (l : list element) (w : W) :
  driver this <> None ->
  driver_find_elements css (world st) = (Ok l, w) ->
  find_elements this css st
  = (Ret l, mkSt w (EvDriver (DFindElements css) :: trace st)).
Proof.
  intros Hd Hf. destruct (driver this) as [d |] eqn:Ed; [| contradiction].
  unfold find_elements, attribute_of. rewrite Ed, bind_ret.
  apply perform_Ok, Hf.
Qed.

(** X15.  The page loads without the landmark, the credentials are typed
    and submitted, and the landmark never shows.  Then [login] raises its
    failure, which names the missing confirmation, after polling for the
    landmark 21 times and doing nothing else since the submission. *)
Theorem login_fails_when_the_landmark_never_shows
        (fuel : nat) (self : InstagramBot) (st st1 : St W) (w1 w2 : W) :
  driver (handler self) <> None ->
  driver_get "https://www.instagram.com/" (world st) = (Ok tt, w1) ->
  driver_find_elements "svg[aria-label=Home]" (elapse 3000 w1) = (Ok [], w2) ->
  credential_steps self
    (mkSt w2 (EvDriver (DFindElements "svg[aria-label=Home]")
              :: EvSleep 3000
              :: EvDriver (DGet "https://www.instagram.com/")
              :: trace st))
  = (Ret tt, st1) ->
  (forall w, exists w',
       driver_find_elements "svg[aria-label=Home]" w = (Ok [], w')) ->
  (20 < fuel)%nat ->
  exists st',
    login fuel self st
    = (Raise (mkExn Exception
         ("Login failed: Message: No login confirmation" ++ newline)), st') /\
    extends_by (is_poll_of "svg[aria-label=Home]") st1 st' /\
    evaluations st' = (evaluations st1 + 21)%nat.
Proof.
  intros Hd Hget Hfind Hcred Hnever Hfuel.
  destruct (wait_for_dialog_never_found fuel (handler self)
              "svg[aria-label=Home]" "Waiting until login" 20 st1
              Hd Hnever ltac:(lia) ltac:(simpl; lia))
    as (st' & E & X & V).
  exists st'. split; [| split; [exact X | exact V]].
  unfold wait_for_dialog in E.
  unfold login, try_except, home_landmark.
  destruct (driver (handler self)) as [d |] eqn:Ed; [| contradiction].
  cbn [attribute_of]. rewrite bind_ret.
  rewrite (bind_Ret _ _ _ _ _ (perform_Ok _ _ st tt w1 Hget)).
  rewrite bind_time_sleep.
  match goal with
  | |- context [bind (find_elements ?t ?css) _ ?s] =>
      rewrite (bind_Ret _ _ _ _ _
                 (find_elements_Ok t css s [] w2
                    ltac:(rewrite Ed; discriminate) Hfind))
  end.
  cbn [truthy]. unfold credential_steps in Hcred.
  step_bind E1;
    [ rewrite (bind_Ret _ _ _ _ _ E1) in Hcred
    | rewrite (bind_Raise _ _ _ _ _ E1) in Hcred; discriminate
    | rewrite (bind_OutOfFuel _ _ _ _ E1) in Hcred; discriminate ].
  step_bind E2;
    [ rewrite (bind_Ret _ _ _ _ _ E2) in Hcred
    | rewrite (bind_Raise _ _ _ _ _ E2) in Hcred; discriminate
    | rewrite (bind_OutOfFuel _ _ _ _ E2) in Hcred; discriminate ].
  step_bind E3;
    [ rewrite (bind_Ret _ _ _ _ _ E3) in Hcred
    | rewrite (bind_Raise _ _ _ _ _ E3) in Hcred; discriminate
    | rewrite (bind_OutOfFuel _ _ _ _ E3) in Hcred; discriminate ].
  rewrite (bind_Ret _ _ _ _ _ Hcred).
  rewrite (bind_Ret _ _ _ _ _ E).
  reflexivity.
Qed.

(** An action whose [Raise] and [OutOfFuel] results are of no concern. *)
Ltac run_to_the_end E :=
  repeat (step_bind E; cbn [fst]; try exact I; clear E).

(** X16.  [login] never returns [False]: it returns [True] or raises, and
    every [Exception] it raises is a plain [Exception] whose message
    starts with "Login failed: ". *)
Theorem login_returns_true_or_raises_wrapped
        (fuel : nat) (self : InstagramBot) (st : St W) :
  wrapped_result "Login failed: " (fst (login fuel self st)).
Proof.
  unfold login, try_except.
  match goal with
  | |- context [match ?body st with _ => _ end] =>
      assert (Hb : match fst (body st) with
                   | Ret b => b = true
                   | _ => True
                   end);
      [| destruct (body st) as [[b | e |] s]; cbn [fst] in *;
         [exact Hb | | exact I]]
  end.
  - run_to_the_end E.
    destruct (truthy _); [reflexivity |].
    run_to_the_end E.
    match goal with b : bool |- _ => destruct b end; cbn; trivial.
  - destruct (isinstance e [Exception]) eqn:He; cbn [fst wrapped_result].
    + left. split; [reflexivity |]. eexists. reflexivity.
    + right. exact He.
Qed.

(** X17.  [post_image] never returns [False] either: [True], or an
    exception, which when it is an [Exception] is a plain one whose
    message starts with "Post failed: ". *)
Theorem post_image_returns_true_or_raises_wrapped
        (fuel : nat) (self : InstagramBot) (image_path caption : string)
        (st : St W) :
  wrapped_result "Post failed: "
                 (fst (post_image fuel self image_path caption st)).
Proof.
  unfold post_image, try_except.
  match goal with
  | |- context [match ?body st with _ => _ end] =>
      assert (Hb : match fst (body st) with
                   | Ret b => b = true
                   | _ => True
                   end);
      [| destruct (body st) as [[b | e |] s]; cbn [fst] in *;
         [exact Hb | | exact I]]
  end.
  - step_bind E; cbn [fst]; try exact I; clear E.
    destruct (negb _); [exact I |]. cbv zeta.
    destruct (negb _); [exact I |]. unfold post_steps.
    run_to_the_end E.
    destruct (negb _); [exact I |].
    run_to_the_end E.
    destruct (negb _); [exact I |].
    run_to_the_end E.
    destruct (negb _); [exact I |].
    run_to_the_end E.
    destruct (negb _); [exact I | reflexivity].
  - destruct (isinstance e [Exception]) eqn:He; cbn [fst wrapped_result].
    + left. split; [reflexivity |]. eexists. reflexivity.
    + right. exact He.
Qed.

(** X18.  [kill_browser] spawns the deletion of the profile exactly when
    there is a driver and a session context, quitting the one and leaving
    the other raise nothing, deletion is asked for, and the platform is
    Linux, Darwin or Windows; in every other case, an exception from
    [driver.quit()] included, the profile is left in place. *)
Theorem kill_browser_deletes_the_profile_only_after_a_clean_exit
        (self : BrowserHandler) (delete_profile : bool) (st : St W) :
  popens (snd (kill_browser self delete_profile st))
  = (popens st
     + if deletes_profile self delete_profile (world st) then 1 else 0)%nat.
Proof.
  unfold kill_browser, deletes_profile, popens, count_ev.
  destruct (driver self) as [d |]; [| simpl; lia].
  unfold perform, bind, emit, lift, attribute_of, time_sleep,
    subprocess_Popen, ret, raise. simpl.
  destruct (driver_quit (world st)) as [[[] | e] w]; simpl; [| lia].
  destruct (sb_init self); simpl; [| lia].
  destruct (sb_exit w) as [[[] | e] w']; simpl; [| lia].
  destruct delete_profile; simpl; [| lia].
  destruct (platform self =? "LINUX")%string; simpl; [lia |].
  destruct (platform self =? "DARWIN")%string; simpl; [lia |].
  destruct (platform self =? "WINDOWS")%string; simpl; lia.
Qed.

End WorkflowsMore.

(** A login on the page where nothing is ever found. *)
Lemma login_fails_when_the_landmark_never_shows_witness :
  exists st1 st',
    credential_steps (H:=empty_page) live_bot
      (mkSt 0%nat [EvDriver (DFindElements "svg[aria-label=Home]");
                   EvSleep 3000;
                   EvDriver (DGet "https://www.instagram.com/")])
    = (Ret tt, st1) /\
    login (H:=empty_page) 30 live_bot st0
    = (Raise (mkExn Exception
         ("Login failed: Message: No login confirmation" ++ newline)), st') /\
    extends_by (is_poll_of "svg[aria-label=Home]") st1 st' /\
    evaluations st' = (evaluations st1 + 21)%nat.
Proof.
  let s := eval vm_compute in
        (snd (credential_steps (H:=empty_page) live_bot
                (mkSt 0%nat
                   [EvDriver (DFindElements "svg[aria-label=Home]");
                    EvSleep 3000;
                    EvDriver (DGet "https://www.instagram.com/")]))) in
  pose (st1 := s).
  destruct (login_fails_when_the_landmark_never_shows
              (H:=empty_page) 30 live_bot st0 st1 0%nat 0%nat)
    as (st' & E & X & V).
  - discriminate.
  - reflexivity.
  - reflexivity.
  - vm_compute. reflexivity.
  - intro w. exists w. reflexivity.
  - lia.
  - exists st1, st'. split; [vm_compute; reflexivity |]. split; [exact E |].
    split; [exact X | exact V].
Defined.
